(** * hytools-lite: the raster handle [HyTools] and its traversal cursor
      [Iterator] (hytools_lite/base.py), embedded as state-passing programs. *)

From Stdlib Require Import ZArith List String Bool Lia.
From Stdlib Require Strings.Byte.
From stdpp Require Import base gmap strings list.
Import ListNotations.
Open Scope string_scope.
Open Scope Z_scope.

(** ** Python values, exceptions and the state-and-exception monad *)

(** The dynamically typed values that the attributes of a handle hold. [PObj]
    stands for an opaque object known only by name (a module, a function, a
    class, the handle itself). *)
Inductive pyval : Type :=
  | PNone
  | PBool (b : bool)
  | PInt (z : Z)
  | PStr (s : string)
  | PObj (name : string).

(** [v == "literal"] for an attribute [v]. *)
Definition py_eq_str (v : pyval) (s : string) : bool :=
  match v with
  | PStr t => String.eqb t s
  | _ => false
  end.

Inductive exn : Type :=
  | NameError
  | UnboundLocalError
  | AttributeError
  | TypeError
  | KeyError
  | IndexError
  | ValueError
  | OSError.

Inductive res (A : Type) : Type :=
  | Ok (a : A)
  | Raise (e : exn).
Arguments Ok {A} a.
Arguments Raise {A} e.

Definition is_ok {A} (r : res A) : bool :=
  match r with Ok _ => true | Raise _ => false end.

Definition res_bind {A B} (r : res A) (k : A -> res B) : res B :=
  match r with
  | Ok a => k a
  | Raise e => Raise e
  end.

(** A method body: it reads and writes the store [S]; an exception keeps the
    writes made before it was raised. *)
Definition M (S A : Type) : Type := S -> res A * S.

Definition ret {S A} (a : A) : M S A := fun s => (Ok a, s).
Definition raise {S A} (e : exn) : M S A := fun s => (Raise e, s).
Definition bind {S A B} (m : M S A) (k : A -> M S B) : M S B :=
  fun s => match m s with
           | (Ok a, s') => k a s'
           | (Raise e, s') => (Raise e, s')
           end.
Definition get_state {S} : M S S := fun s => (Ok s, s).
Definition modify {S} (f : S -> S) : M S unit := fun s => (Ok tt, f s).
Definition lift {S A} (r : res A) : M S A := fun s => (r, s).

Notation "'let*' x ':=' c 'in' k" := (bind c (fun x => k))
  (at level 10, x name, c at level 100, k at level 200).
Notation "c ';;;' k" := (bind c (fun _ => k))
  (at level 100, k at level 200, right associativity).

(** A local variable that is assigned on some branches only: reading it while
    it is unbound raises [UnboundLocalError]. *)
Definition local {S A} (v : option A) : M S A :=
  match v with
  | Some a => ret a
  | None => raise UnboundLocalError
  end.

(** ** Arrays *)

(** One array element: its [itemsize] bytes, in the order they are stored. *)
Definition elem : Type := list Byte.byte.

(** numpy arrays of one, two and three dimensions, as nested rows. *)
Inductive nd (A : Type) : Type :=
  | A1 (v : list A)
  | A2 (m : list (list A))
  | A3 (t : list (list (list A))).
Arguments A1 {A} v.
Arguments A2 {A} m.
Arguments A3 {A} t.

Definition nd_map {A B} (f : A -> B) (a : nd A) : nd B :=
  match a with
  | A1 v => A1 (map f v)
  | A2 m => A2 (map (map f) m)
  | A3 t => A3 (map (map (map f)) t)
  end.

Abbreviation ndarray := (nd elem).
Abbreviation array2 := (list (list elem)).
Abbreviation array3 := (list (list (list elem))).

(** [np.array(rows)] for a Python list of one-dimensional arrays of one
    length: two-dimensional, one row per array; for the empty list it is the
    one-dimensional array without entries, of shape (0,). *)
Definition np_array {A} (rows : list (list A)) : nd A :=
  match rows with
  | [] => A1 []
  | _ :: _ => A2 rows
  end.

(** [ndarray.byteswap()]: the bytes of every element are reversed. *)
Definition byteswap_elem (e : elem) : elem := rev e.
Definition byteswap (a : ndarray) : ndarray := nd_map byteswap_elem a.
Definition byteswap2 (a : array2) : array2 := map (map byteswap_elem) a.
Definition byteswap3 (a : array3) : array3 := map (map (map byteswap_elem)) a.

(** [f(0), ..., f(n-1)]. *)
Definition tabulate {A} (n : nat) (f : nat -> A) : list A := map f (seq 0 n).

(** A flat-binary payload mapped with [np.memmap]: a three-dimensional view
    of shape [mm_shape] over the flat element buffer [mm_at]. *)
Record memmap : Type := {
  mm_shape : nat * nat * nat;
  mm_at : nat -> elem
}.

(** A three-dimensional container dataset addressed as (line, column, band). *)
Record dataset : Type := {
  ds_shape : nat * nat * nat;
  ds_at : nat -> nat -> nat -> elem
}.

(** A node of an open container file: a group of named members or a dataset. *)
#[warnings="-register-all"]
Inductive hdf_node : Type :=
  | HGroup (members : list (string * hdf_node))
  | HDataset (d : dataset).

Fixpoint assoc {A} (k : string) (l : list (string * A)) : option A :=
  match l with
  | [] => None
  | (k', v) :: l' => if String.eqb k k' then Some v else assoc k l'
  end.

(** [node[key]] on a container node. A group is accessed by name: a name it
    does not hold raises [KeyError], a key that is not a string [TypeError].
    On a dataset a string key is a field name, which only a compound type
    has: [ValueError]. *)
Definition hdf_getitem (n : hdf_node) (key : pyval) : res hdf_node :=
  match key with
  | PStr k =>
      match n with
      | HGroup ms =>
          match assoc k ms with
          | Some c => Ok c
          | None => Raise KeyError
          end
      | HDataset _ => Raise ValueError
      end
  | _ => Raise TypeError
  end.

(** What [self.data] holds while a read is in progress: a memory map, or
    the node found in the container file at the reflectance path. *)
Inductive data_obj : Type :=
  | DMemmap (m : memmap)
  | DNode (n : hdf_node).

(** [self.data] seen as a three-dimensional array: a memory map is viewed in
    C order, a container dataset as it is; [None] and a container group do
    not take a three-part index. *)
Definition view3 (d : option data_obj) : res dataset :=
  match d with
  | Some (DMemmap mm) =>
      let '(_, s1, s2) := mm_shape mm in
      Ok {| ds_shape := mm_shape mm;
            ds_at := fun i j k => mm_at mm (((i * s1 + j) * s2 + k)%nat) |}
  | Some (DNode (HDataset ds)) => Ok ds
  | Some (DNode (HGroup _)) => Raise TypeError
  | None => Raise TypeError
  end.

(** *** Integer and slice indexing (numpy and h5py agree on these) *)

(** An integer index into an axis of length [n]: negative indices count from
    the end, anything outside [-n, n) raises [IndexError]. *)
Definition norm_index (n : nat) (i : Z) : res nat :=
  if (0 <=? i) && (i <? Z.of_nat n) then Ok (Z.to_nat i)
  else if (- Z.of_nat n <=? i) && (i <? 0) then Ok (Z.to_nat (i + Z.of_nat n))
  else Raise IndexError.

(** One bound of a slice [start:stop] on an axis of length [n], clipped as
    [slice.indices] does. *)
Definition clip_bound (n : nat) (i : Z) : nat :=
  if i <? 0 then Z.to_nat (Z.max (i + Z.of_nat n) 0)
  else Z.to_nat (Z.min i (Z.of_nat n)).

(** The indices selected by [start:stop] on an axis of length [n]. *)
Definition slice_range (n : nat) (start stop : Z) : list nat :=
  let a := clip_bound n start in
  let b := clip_bound n stop in
  seq a (b - a).

(** [data[:, :, index]]: one band, shaped (lines, columns). *)
Definition getitem_band (d : option data_obj) (index : Z) : res array2 :=
  res_bind (view3 d) (fun ds =>
      let '(nl, nc, nb) := ds_shape ds in
      res_bind (norm_index nb index) (fun b =>
        Ok (tabulate nl (fun l => tabulate nc (fun c => ds_at ds l c b))))).

(** [data[index, :, :]]: one line, shaped (columns, bands). *)
Definition getitem_line (d : option data_obj) (index : Z) : res array2 :=
  res_bind (view3 d) (fun ds =>
      let '(nl, nc, nb) := ds_shape ds in
      res_bind (norm_index nl index) (fun l =>
        Ok (tabulate nc (fun c => tabulate nb (fun b => ds_at ds l c b))))).

(** [data[:, index, :]]: one column, shaped (lines, bands). *)
Definition getitem_column (d : option data_obj) (index : Z) : res array2 :=
  res_bind (view3 d) (fun ds =>
      let '(nl, nc, nb) := ds_shape ds in
      res_bind (norm_index nc index) (fun c =>
        Ok (tabulate nl (fun l => tabulate nb (fun b => ds_at ds l c b))))).

(** [data[line, column, :]]: the spectrum of one pixel. *)
Definition getitem_pixel (d : option data_obj) (line column : Z) : res (list elem) :=
  res_bind (view3 d) (fun ds =>
      let '(nl, nc, nb) := ds_shape ds in
      res_bind (norm_index nl line) (fun l =>
      res_bind (norm_index nc column) (fun c =>
        Ok (tabulate nb (fun b => ds_at ds l c b))))).

(** [data[line_start:line_end, col_start:col_end, :]]. *)
Definition getitem_chunk (d : option data_obj)
    (line_start line_end col_start col_end : Z) : res array3 :=
  res_bind (view3 d) (fun ds =>
      let '(nl, nc, nb) := ds_shape ds in
      Ok (map (fun l =>
             map (fun c => tabulate nb (fun b => ds_at ds l c b))
                 (slice_range nc col_start col_end))
              (slice_range nl line_start line_end))).

(** *** Boolean-mask indexing *)

(** The entries of [row] at the positions where [mrow] is [true]. *)
Fixpoint select_row {A} (row : list A) (mrow : list bool) : list A :=
  match row, mrow with
  | x :: row', b :: mrow' =>
      if b then x :: select_row row' mrow' else select_row row' mrow'
  | _, _ => []
  end.

Fixpoint same_shape2 {A B} (a : list (list A)) (m : list (list B)) : bool :=
  match a, m with
  | [], [] => true
  | r :: a', mr :: m' => (length r =? length mr)%nat && same_shape2 a' m'
  | _, _ => false
  end.

Fixpoint select_rows {A} (a : list (list A)) (m : list (list bool)) : list A :=
  match a, m with
  | r :: a', mr :: m' => select_row r mr ++ select_rows a' m'
  | _, _ => []
  end.

(** A two-dimensional mask that differs from the band in shape and still
    passes numpy's check of the boolean axes: the check compares an axis of
    the mask with the axis of the band only when the mask's axis is not
    empty. A mask without rows is the mask of shape (0, 0). *)
Definition empty_axes {A B} (a : list (list A)) (m : list (list B)) : bool :=
  match m with
  | [] => true
  | _ :: _ => (length a =? length m)%nat && forallb (fun r => (length r =? 0)%nat) m
  end.

(** [band[mask]] for a two-dimensional [band]: a mask of the same shape
    selects entries in row-major order, a one-dimensional mask with one entry
    per row selects rows; a mask with an empty axis whose other axis fits
    selects nothing; any other mask raises [IndexError]. *)
Definition boolean_index (band : array2) (mk : nd bool) : res ndarray :=
  match mk with
  | A2 m => if same_shape2 band m then Ok (A1 (select_rows band m))
            else if empty_axes band m then Ok (A1 [])
            else Raise IndexError
  | A1 v => if (length band =? length v)%nat then Ok (A2 (select_row band v))
            else if (length v =? 0)%nat then Ok (A2 [])
            else Raise IndexError
  | A3 _ => Raise IndexError
  end.

(** ** The raster handle *)

(** [self.wavelengths]: the constructor leaves a Python list, the open
    operation stores a numpy array; only the latter has [max], [min]. *)
Inductive wave_seq : Type :=
  | WList (l : list Z)
  | WArray (a : list Z).

(** The attributes of a [HyTools] object, in the order of [__init__]. *)
Record HyTools : Type := {
  anc_path : gmap string pyval;
  ancillary : gmap string pyval;
  bad_bands : list bool;
  bands : option Z;
  base_key : pyval;
  base_name : pyval;
  brdf : gmap string pyval;
  byte_order : pyval;
  columns : option Z;
  crs : pyval;
  data : option data_obj;
  dtype : pyval;
  endianness : pyval;
  file_name : pyval;
  file_type : pyval;
  fwhm : list Z;
  hdf_obj : option hdf_node;
  interleave : pyval;
  lines : option Z;
  map_info : pyval;
  mask : gmap string (nd bool);
  no_data : pyval;
  offset : Z;
  projection : pyval;
  shape : option (nat * nat * nat);
  topo : gmap string pyval;
  ulx : pyval;
  uly : pyval;
  wavelength_units : pyval;
  wavelengths : wave_seq
}.

(** [HyTools.__init__]. *)
Definition HyTools_init : HyTools := {|
  anc_path := ∅;
  ancillary := ∅;
  bad_bands := [];
  bands := None;
  base_key := PNone;
  base_name := PNone;
  brdf := {[ "type" := PNone ]};
  byte_order := PNone;
  columns := None;
  crs := PNone;
  data := None;
  dtype := PNone;
  endianness := PNone;
  file_name := PNone;
  file_type := PNone;
  fwhm := [];
  hdf_obj := None;
  interleave := PNone;
  lines := None;
  map_info := PNone;
  mask := ∅;
  no_data := PNone;
  offset := 0;
  projection := PNone;
  shape := None;
  topo := {[ "type" := PNone ]};
  ulx := PNone;
  uly := PNone;
  wavelength_units := PNone;
  wavelengths := WList []
|}.

(** Attribute assignments [self.x = v]. *)
Definition set_data (v : option data_obj) (h : HyTools) : HyTools := {|
  anc_path := anc_path h;
  ancillary := ancillary h;
  bad_bands := bad_bands h;
  bands := bands h;
  base_key := base_key h;
  base_name := base_name h;
  brdf := brdf h;
  byte_order := byte_order h;
  columns := columns h;
  crs := crs h;
  data := v;
  dtype := dtype h;
  endianness := endianness h;
  file_name := file_name h;
  file_type := file_type h;
  fwhm := fwhm h;
  hdf_obj := hdf_obj h;
  interleave := interleave h;
  lines := lines h;
  map_info := map_info h;
  mask := mask h;
  no_data := no_data h;
  offset := offset h;
  projection := projection h;
  shape := shape h;
  topo := topo h;
  ulx := ulx h;
  uly := uly h;
  wavelength_units := wavelength_units h;
  wavelengths := wavelengths h
|}.

Definition set_hdf_obj (v : option hdf_node) (h : HyTools) : HyTools := {|
  anc_path := anc_path h;
  ancillary := ancillary h;
  bad_bands := bad_bands h;
  bands := bands h;
  base_key := base_key h;
  base_name := base_name h;
  brdf := brdf h;
  byte_order := byte_order h;
  columns := columns h;
  crs := crs h;
  data := data h;
  dtype := dtype h;
  endianness := endianness h;
  file_name := file_name h;
  file_type := file_type h;
  fwhm := fwhm h;
  hdf_obj := v;
  interleave := interleave h;
  lines := lines h;
  map_info := map_info h;
  mask := mask h;
  no_data := no_data h;
  offset := offset h;
  projection := projection h;
  shape := shape h;
  topo := topo h;
  ulx := ulx h;
  uly := uly h;
  wavelength_units := wavelength_units h;
  wavelengths := wavelengths h
|}.

Definition set_file_name (v : pyval) (h : HyTools) : HyTools := {|
  anc_path := anc_path h;
  ancillary := ancillary h;
  bad_bands := bad_bands h;
  bands := bands h;
  base_key := base_key h;
  base_name := base_name h;
  brdf := brdf h;
  byte_order := byte_order h;
  columns := columns h;
  crs := crs h;
  data := data h;
  dtype := dtype h;
  endianness := endianness h;
  file_name := v;
  file_type := file_type h;
  fwhm := fwhm h;
  hdf_obj := hdf_obj h;
  interleave := interleave h;
  lines := lines h;
  map_info := map_info h;
  mask := mask h;
  no_data := no_data h;
  offset := offset h;
  projection := projection h;
  shape := shape h;
  topo := topo h;
  ulx := ulx h;
  uly := uly h;
  wavelength_units := wavelength_units h;
  wavelengths := wavelengths h
|}.

Definition set_file_type (v : pyval) (h : HyTools) : HyTools := {|
  anc_path := anc_path h;
  ancillary := ancillary h;
  bad_bands := bad_bands h;
  bands := bands h;
  base_key := base_key h;
  base_name := base_name h;
  brdf := brdf h;
  byte_order := byte_order h;
  columns := columns h;
  crs := crs h;
  data := data h;
  dtype := dtype h;
  endianness := endianness h;
  file_name := file_name h;
  file_type := v;
  fwhm := fwhm h;
  hdf_obj := hdf_obj h;
  interleave := interleave h;
  lines := lines h;
  map_info := map_info h;
  mask := mask h;
  no_data := no_data h;
  offset := offset h;
  projection := projection h;
  shape := shape h;
  topo := topo h;
  ulx := ulx h;
  uly := uly h;
  wavelength_units := wavelength_units h;
  wavelengths := wavelengths h
|}.

Definition set_base_name (v : pyval) (h : HyTools) : HyTools := {|
  anc_path := anc_path h;
  ancillary := ancillary h;
  bad_bands := bad_bands h;
  bands := bands h;
  base_key := base_key h;
  base_name := v;
  brdf := brdf h;
  byte_order := byte_order h;
  columns := columns h;
  crs := crs h;
  data := data h;
  dtype := dtype h;
  endianness := endianness h;
  file_name := file_name h;
  file_type := file_type h;
  fwhm := fwhm h;
  hdf_obj := hdf_obj h;
  interleave := interleave h;
  lines := lines h;
  map_info := map_info h;
  mask := mask h;
  no_data := no_data h;
  offset := offset h;
  projection := projection h;
  shape := shape h;
  topo := topo h;
  ulx := ulx h;
  uly := uly h;
  wavelength_units := wavelength_units h;
  wavelengths := wavelengths h
|}.

Definition set_mask_attr (v : gmap string (nd bool)) (h : HyTools) : HyTools := {|
  anc_path := anc_path h;
  ancillary := ancillary h;
  bad_bands := bad_bands h;
  bands := bands h;
  base_key := base_key h;
  base_name := base_name h;
  brdf := brdf h;
  byte_order := byte_order h;
  columns := columns h;
  crs := crs h;
  data := data h;
  dtype := dtype h;
  endianness := endianness h;
  file_name := file_name h;
  file_type := file_type h;
  fwhm := fwhm h;
  hdf_obj := hdf_obj h;
  interleave := interleave h;
  lines := lines h;
  map_info := map_info h;
  mask := v;
  no_data := no_data h;
  offset := offset h;
  projection := projection h;
  shape := shape h;
  topo := topo h;
  ulx := ulx h;
  uly := uly h;
  wavelength_units := wavelength_units h;
  wavelengths := wavelengths h
|}.

(** The store a method runs in: the handle and what has been printed. *)
Record machine : Type := {
  hy_obj : HyTools;
  stdout : list string
}.

Definition on_handle (f : HyTools -> HyTools) (m : machine) : machine :=
  {| hy_obj := f (hy_obj m); stdout := stdout m |}.

(** [self.x]. *)
Definition attr {A} (f : HyTools -> A) : M machine A :=
  fun m => (Ok (f (hy_obj m)), m).

(** [self.x = v]. *)
Definition setattr (f : HyTools -> HyTools) : M machine unit :=
  modify (on_handle f).

(** [print(s)]. *)
Definition print (s : string) : M machine unit :=
  modify (fun m => {| hy_obj := hy_obj m; stdout := stdout m ++ [s] |}).

(** What the handle relies on and base.py does not define: the platform's
    byte order, the two file openers, the two header readers of the open
    operation, the element comparison of numpy and two [os.path] functions. *)
Class Platform : Type := {
  sys_byteorder : string;
  np_memmap : pyval -> pyval -> string -> option (nat * nat * nat) -> Z -> res memmap;
  h5py_File : pyval -> string -> res hdf_node;
  open_envi : pyval -> pyval -> M machine unit;
  open_neon : M machine unit;
  elem_ne : elem -> pyval -> bool;
  os_path_splitext : pyval -> res (string * string);
  os_path_basename : string -> string
}.

(** The interleave codec of hytools_lite/io/envi.py, which base.py imports:
    each function takes [self.data], the request and [self.interleave]. *)
Class Codec : Type := {
  envi_read_band : option data_obj -> Z -> pyval -> res array2;
  envi_read_line : option data_obj -> Z -> pyval -> res array2;
  envi_read_column : option data_obj -> Z -> pyval -> res array2;
  envi_read_pixels : option data_obj -> list Z -> list Z -> pyval -> res array2;
  envi_read_chunk : option data_obj -> Z -> Z -> Z -> Z -> pyval -> res array3
}.

(** ** Methods of [HyTools] *)

(** [if mask:] for a mask argument that is [None] or a name. *)
Definition truthy (msk : option string) : bool :=
  match msk with
  | None => false
  | Some s => negb (String.eqb s "")
  end.

(** [self.wavelengths.max()] and [self.wavelengths.min()]. *)
Definition wave_max (w : wave_seq) : res Z :=
  match w with
  | WList _ => Raise AttributeError
  | WArray [] => Raise ValueError
  | WArray (x :: a) => Ok (fold_left Z.max a x)
  end.

Definition wave_min (w : wave_seq) : res Z :=
  match w with
  | WList _ => Raise AttributeError
  | WArray [] => Raise ValueError
  | WArray (x :: a) => Ok (fold_left Z.min a x)
  end.

(** [self.wavelengths - wave] followed by [np.abs]. *)
Definition abs_diff (w : wave_seq) (wave : Z) : res (list Z) :=
  match w with
  | WList _ => Raise TypeError
  | WArray a => Ok (map (fun x => Z.abs (x - wave)) a)
  end.

(** [np.argmin]: the first index at which the minimum is attained. *)
Fixpoint argmin_from (best : Z) (bi i : nat) (l : list Z) : nat :=
  match l with
  | [] => bi
  | x :: l' => if x <? best then argmin_from x i (S i) l'
               else argmin_from best bi (S i) l'
  end.

Definition argmin (l : list Z) : res nat :=
  match l with
  | [] => Raise ValueError
  | x :: l' => Ok (argmin_from x 0%nat 1%nat l')
  end.

(** The pixels of [get_pixels] read one pair at a time, in list order. *)
Fixpoint read_pairs (d : option data_obj) (ps : list (Z * Z)) : res array2 :=
  match ps with
  | [] => Ok []
  | (line, column) :: ps' =>
      res_bind (getitem_pixel d line column) (fun px =>
      res_bind (read_pairs d ps') (fun rest => Ok (px :: rest)))
  end.

(** *** Name resolution inside a method body *)

(** The names bound at module level in base.py: those every module has, its
    imports and its classes. *)
Definition module_globals : list string :=
  ["__name__"; "__doc__"; "__package__"; "__loader__"; "__spec__";
   "__file__"; "__cached__"; "__builtins__";
   "os"; "sys"; "warnings"; "h5py"; "np";
   "envi_read_band"; "envi_read_pixels";
   "envi_read_line"; "envi_read_column"; "envi_read_chunk";
   "open_envi"; "parse_envi_header"; "envi_header_from_neon";
   "open_neon"; "HyTools"; "Iterator"].

(** The built-in functions of Python 3 (the other built-in names are the
    constants and the exception classes). *)
Definition builtin_names : list string :=
  ["abs"; "aiter"; "all"; "anext"; "any"; "ascii"; "bin"; "bool";
   "breakpoint"; "bytearray"; "bytes"; "callable"; "chr"; "classmethod";
   "compile"; "complex"; "delattr"; "dict"; "dir"; "divmod"; "enumerate";
   "eval"; "exec"; "filter"; "float"; "format"; "frozenset"; "getattr";
   "globals"; "hasattr"; "hash"; "help"; "hex"; "id"; "input"; "int";
   "isinstance"; "issubclass"; "iter"; "len"; "list"; "locals"; "map";
   "max"; "memoryview"; "min"; "next"; "object"; "oct"; "open"; "ord";
   "pow"; "print"; "property"; "range"; "repr"; "reversed"; "round"; "set";
   "setattr"; "slice"; "sorted"; "staticmethod"; "str"; "sum"; "super";
   "tuple"; "type"; "vars"; "zip"; "__import__"].

(** Reading the name [x] in a function whose local variables are [locals]:
    a local, else a module-level name, else a built-in, else [NameError]. *)
Definition load_name {S} (locals : list (string * pyval)) (x : string) : M S pyval :=
  match assoc x locals with
  | Some v => ret v
  | None =>
      if existsb (String.eqb x) (module_globals ++ builtin_names)
      then ret (PObj x)
      else raise NameError
  end.

Section Methods.
Context `{P : Platform} `{C : Codec}.

Definition load_data (mode : string) : M machine unit :=
  let* ft := attr file_type in
  if py_eq_str ft "envi" then
    let* fn := attr file_name in
    let* dt := attr dtype in
    let* sh := attr shape in
    let* off := attr offset in
    let* mm := lift (np_memmap fn dt mode sh off) in
    setattr (set_data (Some (DMemmap mm)))
  else if py_eq_str ft "neon" then
    let* fn := attr file_name in
    let* f := lift (h5py_File fn "r") in
    setattr (set_hdf_obj (Some f));;;
    let* bk := attr base_key in
    let* g := lift (hdf_getitem f bk) in
    let* r := lift (hdf_getitem g (PStr "Reflectance")) in
    let* d := lift (hdf_getitem r (PStr "Reflectance_Data")) in
    setattr (set_data (Some (DNode d)))
  else ret tt.

(** [del self.data] removes the attribute and the last statement binds it
    again, so both leave [data] at [None]. *)
Definition close_data : M machine unit :=
  let* ft := attr file_type in
  (if py_eq_str ft "envi" then
     setattr (set_data None)
   else if py_eq_str ft "neon" then
     let* f := attr hdf_obj in
     match f with
     | None => raise AttributeError
     | Some _ => setattr (set_hdf_obj None)
     end
   else ret tt);;;
  setattr (set_data None).

(** [x.byteswap()] under [if self.endianness != sys.byteorder]. *)
Definition native_order (e : pyval) : bool := py_eq_str e sys_byteorder.

Definition get_band (index : Z) (msk : option string) : M machine ndarray :=
  load_data "r";;;
  let* ft := attr file_type in
  let* band :=
    (if py_eq_str ft "neon" then
       let* d := attr data in
       let* b := lift (getitem_band d index) in
       ret (Some b)
     else if py_eq_str ft "envi" then
       let* d := attr data in
       let* il := attr interleave in
       let* b := lift (envi_read_band d index il) in
       let* e := attr endianness in
       if negb (native_order e) then ret (Some (byteswap2 b))
       else ret (Some b)
     else ret None) in
  close_data;;;
  let* band :=
    (if truthy msk then
       let* b := local band in
       let* reg := attr mask in
       match reg !! default "" msk with
       | None => raise KeyError
       | Some mk => let* r := lift (boolean_index b mk) in ret (Some r)
       end
     else ret (option_map A2 band)) in
  local band.

Definition get_wave (wave : Z) (msk : option string) : M machine (option ndarray) :=
  let* w := attr wavelengths in
  let* hi := lift (wave_max w) in
  let* lo := lift (wave_min w) in
  if (wave >? hi) || (wave <? lo) then
    print "Input wavelength outside wavelength range!";;;
    ret None
  else
    let* ds := lift (abs_diff w wave) in
    let* band_num := lift (argmin ds) in
    let* band := get_band (Z.of_nat band_num) msk in
    ret (Some band).

Definition wave_to_band (wave : Z) : M machine (option nat) :=
  let* w := attr wavelengths in
  let* hi := lift (wave_max w) in
  let* lo := lift (wave_min w) in
  if (wave >? hi) || (wave <? lo) then
    print "Input wavelength outside image range!";;;
    ret None
  else
    let* ds := lift (abs_diff w wave) in
    let* band_num := lift (argmin ds) in
    ret (Some band_num).

Definition get_pixels (lines_ columns_ : list Z) : M machine ndarray :=
  load_data "r";;;
  let* ft := attr file_type in
  let* pixels :=
    (if py_eq_str ft "neon" then
       let* d := attr data in
       let* px := lift (read_pairs d (combine lines_ columns_)) in
       ret (Some (np_array px))
     else if py_eq_str ft "envi" then
       let* d := attr data in
       let* il := attr interleave in
       let* px := lift (envi_read_pixels d lines_ columns_ il) in
       let* e := attr endianness in
       if negb (native_order e) then ret (Some (A2 (byteswap2 px)))
       else ret (Some (A2 px))
     else ret None) in
  close_data;;;
  local pixels.

Definition get_line (index : Z) : M machine ndarray :=
  load_data "r";;;
  let* ft := attr file_type in
  let* line :=
    (if py_eq_str ft "neon" then
       let* d := attr data in
       let* x := lift (getitem_line d index) in
       ret (Some (A2 x))
     else if py_eq_str ft "envi" then
       let* d := attr data in
       let* il := attr interleave in
       let* x := lift (envi_read_line d index il) in
       let* e := attr endianness in
       if negb (native_order e) then ret (Some (A2 (byteswap2 x)))
       else ret (Some (A2 x))
     else ret None) in
  close_data;;;
  local line.

Definition get_column (index : Z) : M machine ndarray :=
  load_data "r";;;
  let* ft := attr file_type in
  let* column :=
    (if py_eq_str ft "neon" then
       let* d := attr data in
       let* x := lift (getitem_column d index) in
       ret (Some (A2 x))
     else if py_eq_str ft "envi" then
       let* d := attr data in
       let* il := attr interleave in
       let* x := lift (envi_read_column d index il) in
       let* e := attr endianness in
       if negb (native_order e) then ret (Some (A2 (byteswap2 x)))
       else ret (Some (A2 x))
     else ret None) in
  close_data;;;
  local column.

Definition get_chunk (col_start col_end line_start line_end : Z) : M machine ndarray :=
  load_data "r";;;
  let* ft := attr file_type in
  let* chunk :=
    (if py_eq_str ft "neon" then
       let* d := attr data in
       let* x := lift (getitem_chunk d line_start line_end col_start col_end) in
       ret (Some (A3 x))
     else if py_eq_str ft "envi" then
       let* d := attr data in
       let* il := attr interleave in
       let* x := lift (envi_read_chunk d col_start col_end line_start line_end il) in
       let* e := attr endianness in
       if negb (native_order e) then ret (Some (A3 (byteswap3 x)))
       else ret (Some (A3 x))
     else ret None) in
  close_data;;;
  local chunk.

Definition set_mask (mk : nd bool) (name : string) : M machine unit :=
  let* reg := attr mask in
  setattr (set_mask_attr (<[name := mk]> reg)).

(** [read_file(self, file_type='envi', anc_path=None, ext=False)]. The body
    reads the name [file_name], which is neither a parameter nor bound at
    module level. *)
Definition read_file (file_type_ anc_path_ ext : pyval) : M machine unit :=
  let locals := [("self", PObj "self"); ("file_type", file_type_);
                 ("anc_path", anc_path_); ("ext", ext)] in
  let* fname := load_name locals "file_name" in
  setattr (set_file_name fname);;;
  setattr (set_file_type file_type_);;;
  (if py_eq_str file_type_ "envi" then open_envi anc_path_ ext
   else if py_eq_str file_type_ "neon" then open_neon
   else print "Unrecognized file type.");;;
  let* band := get_band 0 None in
  let* sentinel := attr no_data in
  let* reg := attr mask in
  setattr (set_mask_attr
             (<["no_data" := nd_map (fun e => elem_ne e sentinel) band]> reg));;;
  let* fn := attr file_name in
  let* parts := lift (os_path_splitext fn) in
  setattr (set_base_name (PStr (os_path_basename (fst parts)))).

End Methods.

(** ** The traversal cursor *)

(** The attributes of an [Iterator] other than [hy_obj]: the cursor refers to
    the handle of the store it runs in, it does not copy it. *)
Record Iterator : Type := {
  chunk_size : option (Z * Z);
  by_ : pyval;
  current_column : Z;
  current_line : Z;
  current_band : Z;
  complete : bool
}.

(** [Iterator.__init__(self, hy_obj, by, chunk_size=None)]. *)
Definition Iterator_init (by' : pyval) (chunk_size' : option (Z * Z)) : Iterator := {|
  chunk_size := chunk_size';
  by_ := by';
  current_column := -1;
  current_line := -1;
  current_band := -1;
  complete := false
|}.

Definition set_current_column (v : Z) (i : Iterator) : Iterator := {|
  chunk_size := chunk_size i; by_ := by_ i;
  current_column := v; current_line := current_line i;
  current_band := current_band i; complete := complete i |}.

Definition set_current_line (v : Z) (i : Iterator) : Iterator := {|
  chunk_size := chunk_size i; by_ := by_ i;
  current_column := current_column i; current_line := v;
  current_band := current_band i; complete := complete i |}.

Definition set_current_band (v : Z) (i : Iterator) : Iterator := {|
  chunk_size := chunk_size i; by_ := by_ i;
  current_column := current_column i; current_line := current_line i;
  current_band := v; complete := complete i |}.

Definition set_complete (v : bool) (i : Iterator) : Iterator := {|
  chunk_size := chunk_size i; by_ := by_ i;
  current_column := current_column i; current_line := current_line i;
  current_band := current_band i; complete := v |}.

(** The store of a cursor method: the cursor and the store of its handle. *)
Record frame : Type := {
  it : Iterator;
  mach : machine
}.

(** [self.x] and [self.x = v] on the cursor. *)
Definition it_attr {A} (f : Iterator -> A) : M frame A :=
  fun s => (Ok (f (it s)), s).

Definition it_set (f : Iterator -> Iterator) : M frame unit :=
  modify (fun s => {| it := f (it s); mach := mach s |}).

(** A method call on [self.hy_obj]. *)
Definition on_hy {A} (c : M machine A) : M frame A :=
  fun s => let (r, m') := c (mach s) in (r, {| it := it s; mach := m' |}).

(** [self.hy_obj.x] used as a number: [None] raises [TypeError] in the
    arithmetic or ordering that follows. *)
Definition hy_int (f : HyTools -> option Z) : M frame Z :=
  let* v := on_hy (attr f) in
  match v with
  | Some z => ret z
  | None => raise TypeError
  end.

(** [self.chunk_size[k]]. *)
Definition chunk_dim (k : nat) : M frame Z :=
  let* cs := it_attr chunk_size in
  match cs, k with
  | Some (rows, _), O => ret rows
  | Some (_, cols), S O => ret cols
  | Some _, _ => raise IndexError
  | None, _ => raise TypeError
  end.

(** [HyTools.iterate(self, by, chunk_size=(100,100))]. *)
Definition iterate (by' : pyval) (chunk_size' : option (Z * Z)) : Iterator :=
  Iterator_init by' chunk_size'.

Section Cursor.
Context `{P : Platform} `{C : Codec}.

Definition read_next : M frame ndarray :=
  let* by' := it_attr by_ in
  let* subset :=
    (if py_eq_str by' "line" then
       let* cl := it_attr current_line in
       it_set (set_current_line (cl + 1));;;
       let* cl := it_attr current_line in
       let* n := hy_int lines in
       (if cl =? n - 1 then it_set (set_complete true) else ret tt);;;
       let* cl := it_attr current_line in
       let* x := on_hy (get_line cl) in
       ret (Some x)
     else if py_eq_str by' "column" then
       let* cc := it_attr current_column in
       it_set (set_current_column (cc + 1));;;
       let* cc := it_attr current_column in
       let* n := hy_int columns in
       (if cc =? n - 1 then it_set (set_complete true) else ret tt);;;
       let* cc := it_attr current_column in
       let* x := on_hy (get_column cc) in
       ret (Some x)
     else if py_eq_str by' "band" then
       let* cb := it_attr current_band in
       it_set (set_current_band (cb + 1));;;
       let* cb := it_attr current_band in
       let* n := hy_int bands in
       (if cb =? n - 1 then it_set (set_complete true) else ret tt);;;
       let* cb := it_attr current_band in
       let* x := on_hy (get_band cb None) in
       ret (Some x)
     else if py_eq_str by' "chunk" then
       let* cc := it_attr current_column in
       (if cc =? -1 then
          it_set (set_current_column (cc + 1));;;
          let* cl := it_attr current_line in
          it_set (set_current_line (cl + 1))
        else
          let* step := chunk_dim 1 in
          it_set (set_current_column (cc + step)));;;
       let* cc := it_attr current_column in
       let* ncols := hy_int columns in
       (if cc >=? ncols then
          it_set (set_current_column 0);;;
          let* cl := it_attr current_line in
          let* step := chunk_dim 0 in
          it_set (set_current_line (cl + step))
        else ret tt);;;
       let* y_start := it_attr current_line in
       let* rows := chunk_dim 0 in
       let* nlines := hy_int lines in
       let y_end := if y_start + rows >=? nlines then nlines else y_start + rows in
       let* x_start := it_attr current_column in
       let* cols := chunk_dim 1 in
       let x_end := if x_start + cols >=? ncols then ncols else x_start + cols in
       (if (y_end =? nlines) && (x_end =? ncols)
        then it_set (set_complete true) else ret tt);;;
       let* x := on_hy (get_chunk x_start x_end y_start y_end) in
       ret (Some x)
     else ret None) in
  local subset.

Definition reset : M frame unit :=
  it_set (set_current_column (-1));;;
  it_set (set_current_line (-1));;;
  it_set (set_current_band (-1));;;
  it_set (set_complete false).

End Cursor.

(** ** The interleave codec *)

(** The three interleave layouts: band-sequential, band-interleaved-by-line
    and band-interleaved-by-pixel. *)
Inductive layout : Type := BSQ | BIL | BIP.

(** Modelled from the spec: the interleave tag of a handle names one of the
    three layouts (by its ENVI header keyword); any other tag is an
    unsupported layout. hytools_lite/io/envi.py, which reads the tag, is not
    part of the sources at hand. *)
Definition parse_interleave (v : pyval) : res layout :=
  if py_eq_str v "bsq" then Ok BSQ
  else if py_eq_str v "bil" then Ok BIL
  else if py_eq_str v "bip" then Ok BIP
  else Raise ValueError.

(** Modelled from the spec: the raster shape (lines, columns, bands) of a
    mapped payload, whose axes are stored in the order of its layout:
    (b, l, c), (l, b, c), (l, c, b). The shape is set by open_envi, which is
    missing. *)
Definition raster_dims (il : layout) (sh : nat * nat * nat) : nat * nat * nat :=
  let '(s0, s1, s2) := sh in
  match il with
  | BSQ => (s1, s2, s0)
  | BIL => (s0, s2, s1)
  | BIP => (s0, s1, s2)
  end.

(** Modelled from the spec: the flat index of element (line [l], column [c],
    band [b]) in each layout (hytools_lite/io/envi.py is not part of the
    sources at hand; the formulas are those of the layout semantics). *)
Definition flat_index (il : layout) (dims : nat * nat * nat) (l c b : nat) : nat :=
  let '(nl, nc, nb) := dims in
  match il with
  | BSQ => b * nl * nc + l * nc + c
  | BIL => l * nb * nc + b * nc + c
  | BIP => l * nc * nb + c * nb + b
  end%nat.

(** Modelled from the spec: a zero-based index into an axis of length [n];
    the codec that checks it is missing. *)
Definition zero_index (n : nat) (i : Z) : res nat :=
  if (0 <=? i) && (i <? Z.of_nat n) then Ok (Z.to_nat i) else Raise IndexError.

(** Modelled from the spec: a half-open range [start, end) within an axis of
    length [n]; the codec that checks it is missing. *)
Definition half_open (n : nat) (start stop : Z) : res (list nat) :=
  if (0 <=? start) && (start <=? stop) && (stop <=? Z.of_nat n)
  then Ok (seq (Z.to_nat start) (Z.to_nat (stop - start)))
  else Raise IndexError.

Definition as_memmap (d : option data_obj) : res memmap :=
  match d with
  | Some (DMemmap mm) => Ok mm
  | _ => Raise TypeError
  end.

(** Modelled from the spec: the element of the payload at (l, c, b), found
    at its flat index; the codec that reads it is missing. *)
Definition stored_at (mm : memmap) (il : layout) (l c b : nat) : elem :=
  mm_at mm (flat_index il (raster_dims il (mm_shape mm)) l c b).

Fixpoint mapM {A B} (f : A -> res B) (l : list A) : res (list B) :=
  match l with
  | [] => Ok []
  | x :: l' => res_bind (f x) (fun y => res_bind (mapM f l') (fun r => Ok (y :: r)))
  end.

(** The five access plans of the codec follow. A request outside the raster
    extent, which the spec leaves undefined, and a tag that names no layout
    are reported as failed reads. *)

(** Modelled from the spec: envi_read_band of the missing io/envi.py; one
    band, shaped (lines, columns). *)
Definition spec_read_band (d : option data_obj) (index : Z) (tag : pyval) : res array2 :=
  res_bind (as_memmap d) (fun mm =>
  res_bind (parse_interleave tag) (fun il =>
  let '(nl, nc, nb) := raster_dims il (mm_shape mm) in
  res_bind (zero_index nb index) (fun b =>
  Ok (tabulate nl (fun l => tabulate nc (fun c => stored_at mm il l c b)))))).

(** Modelled from the spec: envi_read_line of the missing io/envi.py; one
    line, shaped (columns, bands). *)
Definition spec_read_line (d : option data_obj) (index : Z) (tag : pyval) : res array2 :=
  res_bind (as_memmap d) (fun mm =>
  res_bind (parse_interleave tag) (fun il =>
  let '(nl, nc, nb) := raster_dims il (mm_shape mm) in
  res_bind (zero_index nl index) (fun l =>
  Ok (tabulate nc (fun c => tabulate nb (fun b => stored_at mm il l c b)))))).

(** Modelled from the spec: envi_read_column of the missing io/envi.py; one
    column, shaped (lines, bands). *)
Definition spec_read_column (d : option data_obj) (index : Z) (tag : pyval) : res array2 :=
  res_bind (as_memmap d) (fun mm =>
  res_bind (parse_interleave tag) (fun il =>
  let '(nl, nc, nb) := raster_dims il (mm_shape mm) in
  res_bind (zero_index nc index) (fun c =>
  Ok (tabulate nl (fun l => tabulate nb (fun b => stored_at mm il l c b)))))).

(** Modelled from the spec: envi_read_pixels of the missing io/envi.py; the
    spectra of the paired pixels, shaped (n, bands), in input order. *)
Definition spec_read_pixels (d : option data_obj) (lines_ columns_ : list Z)
    (tag : pyval) : res array2 :=
  res_bind (as_memmap d) (fun mm =>
  res_bind (parse_interleave tag) (fun il =>
  let '(nl, nc, nb) := raster_dims il (mm_shape mm) in
  mapM (fun '(line, column) =>
          res_bind (zero_index nl line) (fun l =>
          res_bind (zero_index nc column) (fun c =>
          Ok (tabulate nb (fun b => stored_at mm il l c b)))))
       (combine lines_ columns_))).

(** Modelled from the spec: envi_read_chunk of the missing io/envi.py; a
    window over half-open ranges, shaped (line_end - line_start,
    col_end - col_start, bands). *)
Definition spec_read_chunk (d : option data_obj)
    (col_start col_end line_start line_end : Z) (tag : pyval) : res array3 :=
  res_bind (as_memmap d) (fun mm =>
  res_bind (parse_interleave tag) (fun il =>
  let '(nl, nc, nb) := raster_dims il (mm_shape mm) in
  res_bind (half_open nl line_start line_end) (fun ls =>
  res_bind (half_open nc col_start col_end) (fun cs =>
  Ok (map (fun l => map (fun c => tabulate nb (fun b => stored_at mm il l c b)) cs)
          ls))))).

(** Modelled from the spec: the codec of the missing io/envi.py, made of the
    five plans above. *)
Definition spec_codec : Codec := {|
  envi_read_band := spec_read_band;
  envi_read_line := spec_read_line;
  envi_read_column := spec_read_column;
  envi_read_pixels := spec_read_pixels;
  envi_read_chunk := spec_read_chunk
|}.

(** ** Vocabulary of the statements *)

Definition res_map {A B} (f : A -> B) (r : res A) : res B :=
  match r with
  | Ok a => Ok (f a)
  | Raise e => Raise e
  end.

(** One call of a read operation of the handle. *)
Inductive read_call : Type :=
  | CallBand (index : Z) (msk : option string)
  | CallLine (index : Z)
  | CallColumn (index : Z)
  | CallPixels (lines_ columns_ : list Z)
  | CallChunk (col_start col_end line_start line_end : Z).

Definition mask_of (c : read_call) : option string :=
  match c with
  | CallBand _ msk => msk
  | _ => None
  end.

(** What a call selects from a container dataset. *)
Definition direct_select (c : read_call) (d : option data_obj) : res ndarray :=
  match c with
  | CallBand i _ => res_map A2 (getitem_band d i)
  | CallLine i => res_map A2 (getitem_line d i)
  | CallColumn i => res_map A2 (getitem_column d i)
  | CallPixels ls cs => res_map np_array (read_pairs d (combine ls cs))
  | CallChunk x0 x1 y0 y1 => res_map A3 (getitem_chunk d y0 y1 x0 x1)
  end.

(** The mask step that ends [get_band]. *)
Definition apply_mask (msk : option string) (reg : gmap string (nd bool))
    (a : ndarray) : res ndarray :=
  if truthy msk then
    match reg !! default "" msk with
    | None => Raise KeyError
    | Some mk =>
        match a with
        | A2 rows => boolean_index rows mk
        | _ => Raise IndexError
        end
    end
  else Ok a.

Definition finish (msk : option string) (reg : gmap string (nd bool))
    (x : option ndarray) : res ndarray :=
  match x with
  | None => Raise UnboundLocalError
  | Some a => apply_mask msk reg a
  end.

(** The handle without its data handle: all that is metadata or masks. *)
Definition clear_handle (h : HyTools) : HyTools :=
  set_data None (set_hdf_obj None h).

(** Two stores that differ at most in the data handle. *)
Definition same_meta (m1 m2 : machine) : Prop :=
  clear_handle (hy_obj m1) = clear_handle (hy_obj m2) /\ stdout m1 = stdout m2.

(** The data handle is released: no data object is held, and on the
    container backend no file object either. *)
Definition released (h : HyTools) : Prop :=
  data h = None /\ (py_eq_str (file_type h) "neon" = true -> hdf_obj h = None).

Section Vocabulary.
Context `{P : Platform} `{C : Codec}.

Definition run_read (c : read_call) : M machine ndarray :=
  match c with
  | CallBand i msk => get_band i msk
  | CallLine i => get_line i
  | CallColumn i => get_column i
  | CallPixels ls cs => get_pixels ls cs
  | CallChunk x0 x1 y0 y1 => get_chunk x0 x1 y0 y1
  end.

(** What a call selects from a mapped payload through the codec. *)
Definition codec_select (c : read_call) (d : option data_obj) (il : pyval)
    : res ndarray :=
  match c with
  | CallBand i _ => res_map A2 (envi_read_band d i il)
  | CallLine i => res_map A2 (envi_read_line d i il)
  | CallColumn i => res_map A2 (envi_read_column d i il)
  | CallPixels ls cs => res_map A2 (envi_read_pixels d ls cs il)
  | CallChunk x0 x1 y0 y1 => res_map A3 (envi_read_chunk d x0 x1 y0 y1 il)
  end.

(** The byte-order correction for a declared order [e]. *)
Definition decode (e : pyval) (a : ndarray) : ndarray :=
  if native_order e then a else byteswap a.

(** The middle step of a read, between [load_data] and [close_data]. *)
Definition backend_step (c : read_call) (h : HyTools) : res (option ndarray) :=
  if py_eq_str (file_type h) "neon" then
    res_map Some (direct_select c (data h))
  else if py_eq_str (file_type h) "envi" then
    res_map (fun a => Some (decode (endianness h) a))
            (codec_select c (data h) (interleave h))
  else Ok None.

(** The store after [k] calls of [read_next], whatever each produced. *)
Fixpoint calls (k : nat) (s : frame) : frame :=
  match k with
  | O => s
  | S k' => snd (read_next (calls k' s))
  end.

End Vocabulary.

(** The cursor arithmetic of [read_next] on its own: the cursor after the
    call and the read it asks of a handle of [nl] lines, [nc] columns and
    [nb] bands ([Ok None] when [by] names no mode). *)
Definition cur_attr {A} (f : Iterator -> A) : M Iterator A :=
  fun i => (Ok (f i), i).

Definition cur_dim (k : nat) : M Iterator Z :=
  let* cs := cur_attr chunk_size in
  match cs, k with
  | Some (rows, _), O => ret rows
  | Some (_, cols), S O => ret cols
  | Some _, _ => raise IndexError
  | None, _ => raise TypeError
  end.

Definition dim_int (d : option Z) : M Iterator Z :=
  match d with
  | Some z => ret z
  | None => raise TypeError
  end.

Definition plan (nl nc nb : option Z) : M Iterator (option read_call) :=
  let* by' := cur_attr by_ in
  if py_eq_str by' "line" then
    let* cl := cur_attr current_line in
    modify (set_current_line (cl + 1));;;
    let* cl := cur_attr current_line in
    let* n := dim_int nl in
    (if cl =? n - 1 then modify (set_complete true) else ret tt);;;
    let* cl := cur_attr current_line in
    ret (Some (CallLine cl))
  else if py_eq_str by' "column" then
    let* cc := cur_attr current_column in
    modify (set_current_column (cc + 1));;;
    let* cc := cur_attr current_column in
    let* n := dim_int nc in
    (if cc =? n - 1 then modify (set_complete true) else ret tt);;;
    let* cc := cur_attr current_column in
    ret (Some (CallColumn cc))
  else if py_eq_str by' "band" then
    let* cb := cur_attr current_band in
    modify (set_current_band (cb + 1));;;
    let* cb := cur_attr current_band in
    let* n := dim_int nb in
    (if cb =? n - 1 then modify (set_complete true) else ret tt);;;
    let* cb := cur_attr current_band in
    ret (Some (CallBand cb None))
  else if py_eq_str by' "chunk" then
    let* cc := cur_attr current_column in
    (if cc =? -1 then
       modify (set_current_column (cc + 1));;;
       let* cl := cur_attr current_line in
       modify (set_current_line (cl + 1))
     else
       let* step := cur_dim 1 in
       modify (set_current_column (cc + step)));;;
    let* cc := cur_attr current_column in
    let* ncols := dim_int nc in
    (if cc >=? ncols then
       modify (set_current_column 0);;;
       let* cl := cur_attr current_line in
       let* step := cur_dim 0 in
       modify (set_current_line (cl + step))
     else ret tt);;;
    let* y_start := cur_attr current_line in
    let* rows := cur_dim 0 in
    let* nlines := dim_int nl in
    let y_end := if y_start + rows >=? nlines then nlines else y_start + rows in
    let* x_start := cur_attr current_column in
    let* cols := cur_dim 1 in
    let x_end := if x_start + cols >=? ncols then ncols else x_start + cols in
    (if (y_end =? nlines) && (x_end =? ncols)
     then modify (set_complete true) else ret tt);;;
    ret (Some (CallChunk x_start x_end y_start y_end))
  else ret None.

(** The cursor after [k] calls, by its arithmetic alone. *)
Fixpoint plan_iter (nl nc nb : option Z) (k : nat) (i : Iterator) : Iterator :=
  match k with
  | O => i
  | S k' => snd (plan nl nc nb (plan_iter nl nc nb k' i))
  end.

(** The three one-dimensional traversal modes. *)
Inductive axis : Type := Line | Column | Band.

Definition axis_tag (a : axis) : string :=
  match a with Line => "line" | Column => "column" | Band => "band" end.

Definition axis_size (a : axis) (h : HyTools) : option Z :=
  match a with Line => lines h | Column => columns h | Band => bands h end.

Definition axis_counter (a : axis) (i : Iterator) : Z :=
  match a with
  | Line => current_line i
  | Column => current_column i
  | Band => current_band i
  end.

(** The read of unit [i] that a mode asks of the handle. *)
Definition axis_call (a : axis) (i : Z) : read_call :=
  match a with
  | Line => CallLine i
  | Column => CallColumn i
  | Band => CallBand i None
  end.

(** A tile as [get_chunk] receives it: (col_start, col_end, line_start,
    line_end), and its size in rows and columns. *)
Definition tile : Type := (Z * Z * Z * Z)%type.

Definition tile_call (t : tile) : read_call :=
  let '(x0, x1, y0, y1) := t in CallChunk x0 x1 y0 y1.

Definition tile_size (t : tile) : Z * Z :=
  let '(x0, x1, y0, y1) := t in (y1 - y0, x1 - x0).

(** The nine tiles of a 250 x 250 raster under 100 x 100 chunks, row-major. *)
Definition tiles_250 : list tile :=
  [ (0, 100, 0, 100); (100, 200, 0, 100); (200, 250, 0, 100);
    (0, 100, 100, 200); (100, 200, 100, 200); (200, 250, 100, 200);
    (0, 100, 200, 250); (100, 200, 200, 250); (200, 250, 200, 250) ].

(** The shape of a three-dimensional array, read off its first entries. *)
Definition shape3 (a : ndarray) : option (nat * nat * nat) :=
  match a with
  | A3 t => Some (length t, length (hd [] t), length (hd [] (hd [] t)))
  | _ => None
  end.

(** *** Masks *)

(** The columns at which [mrow] is [true], counted from [c]. *)
Fixpoint true_cols (c : nat) (mrow : list bool) : list nat :=
  match mrow with
  | [] => []
  | b :: mrow' => if b then c :: true_cols (S c) mrow' else true_cols (S c) mrow'
  end.

(** The (line, column) positions at which a mask is [true], in row-major
    order, lines counted from [l]. *)
Fixpoint true_positions (l : nat) (mk : list (list bool)) : list (nat * nat) :=
  match mk with
  | [] => []
  | mrow :: mk' => map (pair l) (true_cols 0 mrow) ++ true_positions (S l) mk'
  end.

Definition count_true (mk : list (list bool)) : nat :=
  length (filter (fun b : bool => b) (concat mk)).

(** [band[l][c]]. *)
Definition entry (band : array2) (p : nat * nat) : option elem :=
  match nth_error band (fst p) with
  | Some row => nth_error row (snd p)
  | None => None
  end.

(** *** Wavelengths *)

Definition is_min (a : list Z) (x : Z) : Prop := In x a /\ forall y, In y a -> x <= y.
Definition is_max (a : list Z) (x : Z) : Prop := In x a /\ forall y, In y a -> y <= x.

(** The distance of band [k] to the query, and band [k] being the first of
    the bands nearest to it. *)
Definition distance (a : list Z) (wave : Z) (k : nat) : Z :=
  Z.abs (nth k a 0 - wave).

Definition nearest (a : list Z) (wave : Z) (k : nat) : Prop :=
  (k < length a)%nat /\
  (forall j, (j < length a)%nat -> distance a wave k <= distance a wave j) /\
  (forall j, (j < k)%nat -> distance a wave k < distance a wave j).

Definition printed (s : string) (m : machine) : machine :=
  {| hy_obj := hy_obj m; stdout := stdout m ++ [s] |}.

(** *** A small scene for the examples *)

(** The two bytes of the number [n], high byte first. *)
Definition cell (n : N) : elem :=
  [default Byte.x00 (Byte.of_N (n / 256)); default Byte.x00 (Byte.of_N (n mod 256))]%N.

(** A container dataset whose element at (l, c, b) is [100 l + 10 c + b]. *)
Definition scene_dataset (nl nc nb : nat) : dataset :=
  {| ds_shape := (nl, nc, nb);
     ds_at := fun l c b =>
       cell (100 * N.of_nat l + 10 * N.of_nat c + N.of_nat b)%N |}.

Definition scene_file (ds : dataset) : hdf_node :=
  HGroup [("SITE", HGroup [("Reflectance", HGroup [("Reflectance_Data", HDataset ds)])])].

(** The flat payload of the scene, mapped for layout [il]: the element at
    flat index [n] is [n]. *)
Definition scene_payload (il : layout) : memmap :=
  {| mm_shape := match il with BSQ => (2, 4, 5) | BIL => (4, 2, 5) | BIP => (4, 5, 2) end%nat;
     mm_at := fun n => cell (N.of_nat n) |}.

(** A little-endian platform with three files: the container files
    scene.h5 (4 x 5 x 2) and tiles.h5 (250 x 250 x 1), and the flat payload
    scene.bin whose element at flat index [n] is [n]. *)
Definition scene_platform : Platform := {|
  sys_byteorder := "little";
  np_memmap := fun fn _ _ sh _ =>
    match fn, sh with
    | PStr "scene.bin", Some s =>
        Ok {| mm_shape := s; mm_at := fun n => cell (N.of_nat n) |}
    | _, _ => Raise OSError
    end;
  h5py_File := fun fn _ =>
    match fn with
    | PStr "scene.h5" => Ok (scene_file (scene_dataset 4 5 2))
    | PStr "tiles.h5" => Ok (scene_file (scene_dataset 250 250 1))
    | _ => Raise OSError
    end;
  open_envi := fun _ _ => ret tt;
  open_neon := ret tt;
  elem_ne := fun _ _ => true;
  os_path_splitext := fun v =>
    match v with
    | PStr s => Ok (s, "")
    | _ => Raise TypeError
    end;
  os_path_basename := fun s => s
|}.

(** A populated handle: as the constructor leaves it, except for the listed
    attributes. *)
Definition scene_handle (ft fn : string) (il en : pyval) (sh : option (nat * nat * nat))
    (nl nc nb : Z) (reg : gmap string (nd bool)) : HyTools := {|
  anc_path := ∅;
  ancillary := ∅;
  bad_bands := [];
  bands := Some nb;
  base_key := PStr "SITE";
  base_name := PNone;
  brdf := {[ "type" := PNone ]};
  byte_order := PNone;
  columns := Some nc;
  crs := PNone;
  data := None;
  dtype := PStr "uint16";
  endianness := en;
  file_name := PStr fn;
  file_type := PStr ft;
  fwhm := [];
  hdf_obj := None;
  interleave := il;
  lines := Some nl;
  map_info := PNone;
  mask := reg;
  no_data := PInt (-9999);
  offset := 0;
  projection := PNone;
  shape := sh;
  topo := {[ "type" := PNone ]};
  ulx := PNone;
  uly := PNone;
  wavelength_units := PNone;
  wavelengths := WArray [450; 550; 650; 750]
|}.

Definition fresh_store : machine := {| hy_obj := HyTools_init; stdout := [] |}.

(** scene.h5 opened as a container, with masks [reg]. *)
Definition neon_store (reg : gmap string (nd bool)) : machine :=
  {| hy_obj := scene_handle "neon" "scene.h5" PNone PNone None 4 5 2 reg;
     stdout := [] |}.

(** tiles.h5 opened as a container. *)
Definition tiles_store : machine :=
  {| hy_obj := scene_handle "neon" "tiles.h5" PNone PNone None 250 250 1 ∅;
     stdout := [] |}.

(** scene.bin opened as a flat payload of 4 x 5 x 2 in layout [il], declared
    in byte order [en]. *)
Definition envi_store (il : layout) (en : string) : machine :=
  let tag := match il with BSQ => "bsq" | BIL => "bil" | BIP => "bip" end in
  {| hy_obj := scene_handle "envi" "scene.bin" (PStr tag) (PStr en)
                 (Some (mm_shape (scene_payload il))) 4 5 2 ∅;
     stdout := [] |}.

(** A mask of the scene's spatial shape, [True] on the diagonal. *)
Definition diagonal_mask : list (list bool) :=
  [ [true; false; false; false; false];
    [false; true; false; false; false];
    [false; false; true; false; false];
    [false; false; false; true; false] ].

(** The size of the dimension a mode runs along, among the three sizes. *)
Definition axis_dim (a : axis) (nl nc nb : option Z) : option Z :=
  match a with Line => nl | Column => nc | Band => nb end.

(** The dataset [load_data] looks up in an open container file:
    [f[base_key]["Reflectance"]["Reflectance_Data"]]. *)
Definition reflectance (f : hdf_node) (bk : pyval) : res hdf_node :=
  res_bind (hdf_getitem f bk) (fun g =>
  res_bind (hdf_getitem g (PStr "Reflectance")) (fun r =>
  hdf_getitem r (PStr "Reflectance_Data"))).




Definition is_some {A} (o : option A) : bool :=
  match o with Some _ => true | None => false end.

(** The scene's band [b] as the container holds it, and the two cursors and
    two mask registries of the examples. *)
Definition scene_band (b : nat) : array2 :=
  tabulate 4 (fun l => tabulate 5 (fun c => ds_at (scene_dataset 4 5 2) l c b)).

Definition chunk_cursor : frame :=
  {| it := iterate (PStr "chunk") (Some (100, 100)); mach := tiles_store |}.

Definition line_cursor : frame :=
  {| it := Iterator_init (PStr "line") None; mach := neon_store ∅ |}.

Definition masked_store : machine := neon_store {[ "no_data" := A2 diagonal_mask ]}.

Definition unnamed_mask_store : machine := neon_store {[ "" := A2 diagonal_mask ]}.

(** ** The remaining methods of [HyTools] *)

Definition set_bad_bands (v : list bool) (h : HyTools) : HyTools := {|
  anc_path := anc_path h;
  ancillary := ancillary h;
  bad_bands := v;
  bands := bands h;
  base_key := base_key h;
  base_name := base_name h;
  brdf := brdf h;
  byte_order := byte_order h;
  columns := columns h;
  crs := crs h;
  data := data h;
  dtype := dtype h;
  endianness := endianness h;
  file_name := file_name h;
  file_type := file_type h;
  fwhm := fwhm h;
  hdf_obj := hdf_obj h;
  interleave := interleave h;
  lines := lines h;
  map_info := map_info h;
  mask := mask h;
  no_data := no_data h;
  offset := offset h;
  projection := projection h;
  shape := shape h;
  topo := topo h;
  ulx := ulx h;
  uly := uly h;
  wavelength_units := wavelength_units h;
  wavelengths := wavelengths h
|}.

(** The items a [for] loop over [self.wavelengths] visits. *)
Definition wave_items (w : wave_seq) : list Z :=
  match w with
  | WList l => l
  | WArray a => a
  end.

(** The inner loop of [create_bad_bands]:
    [bad = ((wavelength >= start) & (wavelength <= end)) or bad] over the
    regions, from [bad = False]. *)
Definition region_scan (wavelength : Z) (bad_regions : list (Z * Z)) : bool :=
  fold_left (fun bad region =>
               ((wavelength >=? fst region) && (wavelength <=? snd region)) || bad)
            bad_regions false.

Definition create_bad_bands (bad_regions : list (Z * Z)) : M machine unit :=
  let* w := attr wavelengths in
  setattr (set_bad_bands (map (fun wavelength => region_scan wavelength bad_regions)
                              (wave_items w))).

(** [if args:] for an argument of any type. *)
Definition py_truthy (v : pyval) : bool :=
  match v with
  | PNone => false
  | PBool b => b
  | PInt z => negb (z =? 0)
  | PStr s => negb (String.eqb s "")
  | PObj _ => true
  end.

(** A function passed to [gen_mask] or [do]: called with the handle as its
    context and with [args] when they are given; it may read and change the
    handle, raise, or return. *)
Definition callback (A : Type) : Type := option pyval -> M machine A.

Definition gen_mask (masker : callback (nd bool)) (name : string) (args : pyval)
    : M machine unit :=
  if py_truthy args then
    let* mk := masker (Some args) in
    let* reg := attr mask in
    setattr (set_mask_attr (<[name := mk]> reg))
  else
    let* mk := masker None in
    let* reg := attr mask in
    setattr (set_mask_attr (<[name := mk]> reg)).

(** [HyTools.do]. *)
Definition do_ {A} (function : callback A) (args : pyval) : M machine A :=
  if py_truthy args then function (Some args)
  else function None.

(** Elementwise arithmetic of numpy on two arrays, which base.py uses and
    does not define. *)
Class ArrayArith : Type := {
  np_subtract : ndarray -> ndarray -> res ndarray;
  np_add : ndarray -> ndarray -> res ndarray;
  np_divide : ndarray -> ndarray -> res ndarray
}.

(** A binary operator on what [get_wave] returned: [None] as an operand
    raises [TypeError]. *)
Definition binop (op : ndarray -> ndarray -> res ndarray)
    (x y : option ndarray) : res ndarray :=
  match x, y with
  | Some a, Some b => op a b
  | _, _ => Raise TypeError
  end.

Section BandMath.
Context `{P : Platform} `{C : Codec} `{AA : ArrayArith}.

Definition ndi (wave1 wave2 : Z) (msk : option string) : M machine ndarray :=
  let* wave1 := get_wave wave1 None in
  let* wave2 := get_wave wave2 None in
  let* num := lift (binop np_subtract wave1 wave2) in
  let* den := lift (binop np_add wave1 wave2) in
  let* ndi := lift (np_divide num den) in
  if truthy msk then
    let* reg := attr mask in
    lift (apply_mask msk reg ndi)
  else ret ndi.

End BandMath.

(** *** Vocabulary of the further statements *)

(** The tile of row [r] and column [c] of the tiling of a raster of [L]
    lines and [C] columns by chunks of [R] rows and [S] columns, clipped to
    the raster. *)
Definition tile_at (L C R S r c : Z) : tile :=
  (c * S, Z.min (c * S + S) C, r * R, Z.min (r * R + R) L).

(** The wavelength lies within one of the regions, ends included. *)
Definition in_some_region (wavelength : Z) (bad_regions : list (Z * Z)) : Prop :=
  exists region, In region bad_regions /\
                 fst region <= wavelength <= snd region.

(** [chunk[i][j][b]]. *)
Definition entry3 (t : array3) (i j b : nat) : option elem :=
  match nth_error t i with
  | Some rows =>
      match nth_error rows j with
      | Some px => nth_error px b
      | None => None
      end
  | None => None
  end.

(** The cursor of a chunk traversal that last produced the tile at row [r]
    and column [c] of the tiling by chunks of [R] rows and [S] columns. *)
Definition chunk_cursor_at (R S r c : Z) (done : bool) : Iterator :=
  {| chunk_size := Some (R, S); by_ := PStr "chunk";
     current_column := c * S; current_line := r * R;
     current_band := -1; complete := done |}.

(** A callback that returns [x] and leaves the handle alone. *)
Definition constant_callback {A} (x : A) : callback A := fun _ => ret x.

(** A callback that tells whether it was called with arguments. *)
Definition arity_probe : callback bool := fun args => ret (is_some args).

(** A platform on which every container file opens and holds nothing, and no
    payload can be mapped. *)
Definition bare_platform : Platform := {|
  sys_byteorder := "little";
  np_memmap := fun _ _ _ _ _ => Raise OSError;
  h5py_File := fun _ _ => Ok (HGroup []);
  open_envi := fun _ _ => ret tt;
  open_neon := ret tt;
  elem_ne := fun _ _ => true;
  os_path_splitext := fun _ => Raise TypeError;
  os_path_basename := fun s => s
|}.

(** An arithmetic that answers every operation with its first operand. *)
Definition first_operand_arith : ArrayArith := {|
  np_subtract := fun a _ => Ok a;
  np_add := fun a _ => Ok a;
  np_divide := fun a _ => Ok a
|}.

(** A line cursor on the scene that has already completed. *)
Definition finished_cursor : frame :=
  {| it := set_complete true (Iterator_init (PStr "line") None); mach := neon_store ∅ |}.

(** A cursor on the scene in a mode that does not exist. *)
Definition pixel_cursor : frame :=
  {| it := Iterator_init (PStr "pixel") None; mach := neon_store ∅ |}.

(** A chunk cursor on the scene (4 lines, 5 columns) with chunks of 3 rows
    and 2 columns. *)
Definition scene_chunk_cursor : frame :=
  {| it := iterate (PStr "chunk") (Some (3, 2)); mach := neon_store ∅ |}.

(** * Proofs *)

(** ** Running a method symbolically *)

Ltac split_inner :=
  match goal with
  | |- context [match ?x with _ => _ end] =>
      lazymatch x with
      | context [match _ with _ => _ end] => fail
      | _ => destruct x eqn:?
      end
  end.

Ltac norm :=
  cbv beta iota zeta delta
    [ret raise local lift bind attr setattr print modify
     res_map res_bind option_map negb
     backend_step decode finish apply_mask direct_select codec_select
     byteswap nd_map byteswap2 byteswap3 fst snd
     it_attr it_set on_hy hy_int chunk_dim cur_attr cur_dim dim_int];
  cbn [it mach hy_obj stdout].

(** The attributes of a handle that an assignment to [data] or [hdf_obj]
    leaves alone reduce through it. *)
Ltac attrs :=
  cbn [on_handle hy_obj stdout set_data set_hdf_obj clear_handle
       anc_path ancillary bad_bands bands base_key base_name brdf byte_order
       columns crs data dtype endianness file_name file_type fwhm hdf_obj
       interleave lines map_info mask no_data offset projection shape topo
       ulx uly wavelength_units wavelengths] in *.

Ltac norm0 :=
  cbv beta iota zeta delta
    [ret raise local lift bind attr setattr print modify
     res_map res_bind option_map negb finish fst snd];
  cbn [it mach hy_obj stdout].

Ltac eval_tests :=
  repeat match goal with
  | |- context [py_eq_str (PStr ?a) ?b] =>
      let v := eval vm_compute in (py_eq_str (PStr a) b) in
      change (py_eq_str (PStr a) b) with v
  end.

(** Steps through a method once the backend kind [H] is known. *)
Ltac known_type H := norm0; attrs; rewrite ?H; eval_tests; norm0; attrs.

Lemma same_meta_refl m : same_meta m m.
Proof. split; reflexivity. Qed.

Lemma same_meta_trans m1 m2 m3 :
  same_meta m1 m2 -> same_meta m2 m3 -> same_meta m1 m3.
Proof. intros [H1 H2] [H3 H4]. split; congruence. Qed.

Lemma same_meta_sym m1 m2 : same_meta m1 m2 -> same_meta m2 m1.
Proof. intros [H1 H2]. split; congruence. Qed.

Lemma same_meta_set_data v m : same_meta m (on_handle (set_data v) m).
Proof. split; reflexivity. Qed.

Lemma same_meta_set_hdf_obj v m : same_meta m (on_handle (set_hdf_obj v) m).
Proof. split; reflexivity. Qed.

Create HintDb meta.
#[local] Hint Resolve same_meta_refl same_meta_set_data same_meta_set_hdf_obj : meta.

(** Every attribute other than the data handle is read off [clear_handle]. *)
Lemma clear_handle_attr {A} (f : HyTools -> A) h1 h2 :
  (forall h, f (clear_handle h) = f h) ->
  clear_handle h1 = clear_handle h2 -> f h1 = f h2.
Proof. intros Hf E. rewrite <- (Hf h1), <- (Hf h2), E. reflexivity. Qed.

Ltac meta_attr f H :=
  let E := fresh "E" in
  pose proof (clear_handle_attr f _ _ (fun _ => eq_refl) H) as E.

Lemma py_eq_str_true v s : py_eq_str v s = true <-> v = PStr s.
Proof.
  destruct v; cbn; try (split; [discriminate | intros [=]]).
  rewrite String.eqb_eq. split; [congruence | intros [=]; congruence].
Qed.

Lemma py_eq_str_refl s : py_eq_str (PStr s) s = true.
Proof. apply py_eq_str_true. reflexivity. Qed.

Lemma py_eq_str_excl v s t :
  s <> t -> py_eq_str v s = true -> py_eq_str v t = true -> False.
Proof. rewrite !py_eq_str_true. intros Hne -> [=]. contradiction. Qed.

Section ReadProtocol.
Context `{P : Platform} `{C : Codec}.

(** The five read operations follow one protocol: acquire, select, release,
    finish. *)
Lemma run_read_protocol c m :
  run_read c m =
  match load_data "r" m with
  | (Raise e, m1) => (Raise e, m1)
  | (Ok _, m1) =>
      match backend_step c (hy_obj m1) with
      | Raise e => (Raise e, m1)
      | Ok x =>
          match close_data m1 with
          | (Raise e, m2) => (Raise e, m2)
          | (Ok _, m2) => (finish (mask_of c) (mask (hy_obj m2)) x, m2)
          end
      end
  end.
Proof.
  destruct c; cbn [run_read mask_of];
    unfold get_band, get_line, get_column, get_pixels, get_chunk;
    unfold bind at 1; destruct (load_data "r" m) as [[[]|e] m1]; try reflexivity;
    norm; destruct (py_eq_str (file_type (hy_obj m1)) "neon");
    repeat (split_inner; norm; try reflexivity).
Qed.

(** [read_next] is its cursor arithmetic followed by one read. *)
Lemma read_next_plan s :
  read_next s =
  let h := hy_obj (mach s) in
  match plan (lines h) (columns h) (bands h) (it s) with
  | (Raise e, i') => (Raise e, {| it := i'; mach := mach s |})
  | (Ok None, i') => (Raise UnboundLocalError, {| it := i'; mach := mach s |})
  | (Ok (Some c), i') =>
      let (r, m') := run_read c (mach s) in (r, {| it := i'; mach := m' |})
  end.
Proof.
  destruct s as [i m]. unfold read_next, plan. cbn [it mach]. norm.
  repeat (split_inner; norm; cbn [run_read]; try reflexivity).
Qed.

Lemma load_data_meta mode m : same_meta m (snd (load_data mode m)).
Proof.
  unfold load_data. norm.
  repeat (split_inner; norm; auto with meta).
  eapply same_meta_trans; [apply same_meta_set_hdf_obj | apply same_meta_set_data].
Qed.

Lemma close_data_meta m : same_meta m (snd (close_data m)).
Proof.
  unfold close_data. norm.
  repeat (split_inner; norm; auto with meta).
  all: try (eapply same_meta_trans; [| apply same_meta_set_data]; auto with meta).
Qed.

(** A read changes nothing but the data handle, whether it fails or not. *)
Lemma run_read_meta c m : same_meta m (snd (run_read c m)).
Proof.
  rewrite run_read_protocol.
  pose proof (load_data_meta "r" m) as H1.
  destruct (load_data "r" m) as [[[]|e] m1]; cbn [snd] in *; auto.
  destruct (backend_step c (hy_obj m1)); cbn [snd]; auto.
  pose proof (close_data_meta m1) as H2.
  destruct (close_data m1) as [[[]|e] m2]; cbn [snd] in *;
    eapply same_meta_trans; eauto.
Qed.

Lemma close_data_released m :
  is_ok (fst (close_data m)) = true -> released (hy_obj (snd (close_data m))).
Proof.
  unfold close_data, released. norm.
  repeat (split_inner; norm; attrs); cbn [is_ok fst snd]; try discriminate;
    intros _; split; try reflexivity; try congruence.
  intros H. exfalso. eapply (py_eq_str_excl _ "envi" "neon"); eauto.
Qed.

(** A read that returns has released the data handle. *)
Lemma run_read_released c m :
  is_ok (fst (run_read c m)) = true -> released (hy_obj (snd (run_read c m))).
Proof.
  rewrite run_read_protocol.
  destruct (load_data "r" m) as [[[]|e] m1]; cbn [fst snd is_ok]; try discriminate.
  destruct (backend_step c (hy_obj m1)); cbn [fst snd is_ok]; try discriminate.
  pose proof (close_data_released m1) as H.
  destruct (close_data m1) as [[[]|e] m2]; cbn [fst snd is_ok] in *; try discriminate.
  intros _. apply H. reflexivity.
Qed.

(** What a read returns depends on the metadata and masks only, not on a
    data handle left behind by an earlier call. *)
Lemma run_read_meta_only c m1 m2 :
  clear_handle (hy_obj m1) = clear_handle (hy_obj m2) ->
  fst (run_read c m1) = fst (run_read c m2).
Proof.
  intros H. rewrite !run_read_protocol.
  destruct m1 as [h1 o1], m2 as [h2 o2]. cbn [hy_obj] in H.
  meta_attr file_type H. meta_attr file_name H. meta_attr dtype H.
  meta_attr shape H. meta_attr offset H. meta_attr base_key H.
  meta_attr interleave H. meta_attr endianness H. meta_attr mask H.
  unfold load_data, close_data, backend_step. norm. attrs.
  repeat (rewrite ?E, ?E0, ?E1, ?E2, ?E3, ?E4, ?E5, ?E6, ?E7;
          split_inner; norm; attrs; try reflexivity; try congruence).
Qed.

(** A read on the container backend, when the file opens and the request
    is within the dataset. *)
Lemma run_read_neon c m f d x :
  file_type (hy_obj m) = PStr "neon" ->
  h5py_File (file_name (hy_obj m)) "r" = Ok f ->
  reflectance f (base_key (hy_obj m)) = Ok d ->
  direct_select c (Some (DNode d)) = Ok x ->
  run_read c m = (apply_mask (mask_of c) (mask (hy_obj m)) x, on_handle clear_handle m).
Proof.
  intros Hft Hf Hd Hx. rewrite run_read_protocol.
  unfold load_data, close_data, backend_step, reflectance in *.
  known_type Hft. rewrite Hf. norm0.
  cbv beta iota delta [res_bind] in Hd.
  destruct (hdf_getitem f (base_key (hy_obj m))) as [g|]; [|discriminate]. norm0.
  destruct (hdf_getitem g (PStr "Reflectance")) as [r|]; [|discriminate]. norm0.
  rewrite Hd. known_type Hft. rewrite Hx. known_type Hft.
  reflexivity.
Qed.

(** A read on the flat-binary backend, when the payload maps and the codec
    selects. *)
Lemma run_read_envi c m mm x :
  file_type (hy_obj m) = PStr "envi" ->
  np_memmap (file_name (hy_obj m)) (dtype (hy_obj m)) "r"
            (shape (hy_obj m)) (offset (hy_obj m)) = Ok mm ->
  codec_select c (Some (DMemmap mm)) (interleave (hy_obj m)) = Ok x ->
  run_read c m =
  (apply_mask (mask_of c) (mask (hy_obj m)) (decode (endianness (hy_obj m)) x),
   on_handle (set_data None) m).
Proof.
  intros Hft Hmm Hx. rewrite run_read_protocol.
  unfold load_data, close_data, backend_step in *.
  known_type Hft. rewrite Hmm. known_type Hft. rewrite Hx. known_type Hft.
  reflexivity.
Qed.

End ReadProtocol.

(** ** The cursor *)

Ltac it_attrs :=
  cbn [set_current_column set_current_line set_current_band set_complete
       chunk_size by_ current_column current_line current_band complete
       Iterator_init iterate] in *.

Lemma plan_keeps_mode nl nc nb i :
  by_ (snd (plan nl nc nb i)) = by_ i /\
  chunk_size (snd (plan nl nc nb i)) = chunk_size i.
Proof.
  unfold plan. norm.
  repeat (split_inner; norm; it_attrs); split; congruence.
Qed.

Lemma plan_iter_keeps_mode nl nc nb k i :
  by_ (plan_iter nl nc nb k i) = by_ i /\
  chunk_size (plan_iter nl nc nb k i) = chunk_size i.
Proof.
  induction k as [|k IH]; cbn [plan_iter]; [split; reflexivity|].
  destruct (plan_keeps_mode nl nc nb (plan_iter nl nc nb k i)). intuition congruence.
Qed.

Lemma plan_axis a nl nc nb n i :
  by_ i = PStr (axis_tag a) -> axis_dim a nl nc nb = Some n ->
  fst (plan nl nc nb i) = Ok (Some (axis_call a (axis_counter a i + 1))) /\
  axis_counter a (snd (plan nl nc nb i)) = axis_counter a i + 1 /\
  complete (snd (plan nl nc nb i)) = (complete i || (axis_counter a i + 1 =? n - 1)).
Proof.
  intros Hby Hn. unfold plan. norm. rewrite Hby.
  destruct a; cbn [axis_tag axis_dim axis_call axis_counter py_eq_str String.eqb Ascii.eqb Bool.eqb] in *;
    subst; norm; it_attrs;
    destruct (_ =? n - 1); norm; it_attrs; rewrite ?orb_true_r, ?orb_false_r; auto.
Qed.

Lemma plan_iter_axis a nl nc nb n cs j :
  axis_dim a nl nc nb = Some n -> 0 < n -> Z.of_nat j <= n ->
  let i := plan_iter nl nc nb j (Iterator_init (PStr (axis_tag a)) cs) in
  axis_counter a i = Z.of_nat j - 1 /\ complete i = (Z.of_nat j =? n).
Proof.
  intros Hn Hpos. cbv zeta. induction j as [|j IH]; intros Hj.
  - cbn [plan_iter]. split; [destruct a; reflexivity|].
    it_attrs. symmetry. apply Z.eqb_neq. lia.
  - cbn [plan_iter].
    destruct IH as [IHc IHd]; [lia|].
    destruct (plan_axis a nl nc nb n (plan_iter nl nc nb j (Iterator_init (PStr (axis_tag a)) cs)))
      as (_ & Hc & Hd); auto.
    { rewrite (proj1 (plan_iter_keeps_mode _ _ _ _ _)). reflexivity. }
    rewrite Hc, Hd, IHc, IHd. split; [lia|].
    destruct (Z.of_nat j =? n) eqn:E1; [apply Z.eqb_eq in E1; lia|].
    cbn [orb]. destruct (Z.of_nat (S j) =? n) eqn:E2.
    + apply Z.eqb_eq in E2. apply Z.eqb_eq. lia.
    + apply Z.eqb_neq in E2. apply Z.eqb_neq. lia.
Qed.

Section CursorFacts.
Context `{P : Platform} `{C : Codec}.

Lemma read_next_it s :
  let h := hy_obj (mach s) in
  it (snd (read_next s)) = snd (plan (lines h) (columns h) (bands h) (it s)).
Proof.
  cbv zeta. rewrite read_next_plan. cbv zeta.
  destruct (plan _ _ _ (it s)) as [[[c|]|e] i']; try reflexivity.
  destruct (run_read c (mach s)); reflexivity.
Qed.

Lemma read_next_meta s : same_meta (mach s) (mach (snd (read_next s))).
Proof.
  rewrite read_next_plan. cbv zeta.
  destruct (plan _ _ _ (it s)) as [[[c|]|e] i']; try apply same_meta_refl.
  pose proof (run_read_meta c (mach s)).
  destruct (run_read c (mach s)); assumption.
Qed.

Lemma same_meta_dims m1 m2 :
  same_meta m1 m2 ->
  lines (hy_obj m1) = lines (hy_obj m2) /\
  columns (hy_obj m1) = columns (hy_obj m2) /\
  bands (hy_obj m1) = bands (hy_obj m2).
Proof.
  intros [H _]. meta_attr lines H. meta_attr columns H. meta_attr bands H. auto.
Qed.

Lemma calls_meta k s : same_meta (mach s) (mach (calls k s)).
Proof.
  induction k as [|k IH]; cbn [calls]; [apply same_meta_refl|].
  eapply same_meta_trans; [exact IH | apply read_next_meta].
Qed.

Lemma calls_it k s :
  let h := hy_obj (mach s) in
  it (calls k s) = plan_iter (lines h) (columns h) (bands h) k (it s).
Proof.
  cbv zeta. induction k as [|k IH]; cbn [calls plan_iter]; [reflexivity|].
  rewrite read_next_it. cbv zeta.
  destruct (same_meta_dims _ _ (calls_meta k s)) as (E1 & E2 & E3).
  rewrite <- E1, <- E2, <- E3, IH. reflexivity.
Qed.

Lemma read_next_meta_only i m1 m2 :
  clear_handle (hy_obj m1) = clear_handle (hy_obj m2) ->
  fst (read_next {| it := i; mach := m1 |}) = fst (read_next {| it := i; mach := m2 |}).
Proof.
  intros H. rewrite !read_next_plan. cbv zeta. cbn [it mach].
  meta_attr lines H. meta_attr columns H. meta_attr bands H.
  rewrite E, E0, E1.
  destruct (plan _ _ _ i) as [[[c|]|e] i']; try reflexivity.
  pose proof (run_read_meta_only c m1 m2 H).
  destruct (run_read c m1), (run_read c m2); assumption.
Qed.

Lemma axis_size_dim a h : axis_size a h = axis_dim a (lines h) (columns h) (bands h).
Proof. destruct a; reflexivity. Qed.

(** After [k] calls the next one asks the handle for what the arithmetic
    plans. *)
Lemma read_next_calls k s c i' :
  let h := hy_obj (mach s) in
  plan (lines h) (columns h) (bands h)
       (plan_iter (lines h) (columns h) (bands h) k (it s)) = (Ok (Some c), i') ->
  read_next (calls k s) =
  (let (r, m') := run_read c (mach (calls k s)) in (r, {| it := i'; mach := m' |})).
Proof.
  cbv zeta. intros H. rewrite read_next_plan. cbv zeta.
  destruct (same_meta_dims _ _ (calls_meta k s)) as (E1 & E2 & E3).
  rewrite <- E1, <- E2, <- E3, calls_it. cbv zeta. rewrite H. reflexivity.
Qed.

End CursorFacts.

(** ** Indexing *)

Lemma norm_index_in n i :
  0 <= i < Z.of_nat n -> norm_index n i = Ok (Z.to_nat i).
Proof.
  intros H. unfold norm_index.
  destruct (0 <=? i) eqn:E1; [|apply Z.leb_gt in E1; lia].
  destruct (i <? Z.of_nat n) eqn:E2; [reflexivity|apply Z.ltb_ge in E2; lia].
Qed.

Lemma clip_bound_in n i : 0 <= i <= Z.of_nat n -> clip_bound n i = Z.to_nat i.
Proof.
  intros H. unfold clip_bound.
  destruct (i <? 0) eqn:E; [apply Z.ltb_lt in E; lia|]. f_equal. lia.
Qed.

Lemma slice_range_in n a b :
  0 <= a <= b -> b <= Z.of_nat n ->
  slice_range n a b = seq (Z.to_nat a) (Z.to_nat (b - a)).
Proof.
  intros H1 H2. unfold slice_range.
  rewrite !clip_bound_in by lia. f_equal. lia.
Qed.

Lemma tabulate_length {A} n (f : nat -> A) : length (tabulate n f) = n.
Proof. unfold tabulate. rewrite length_map, length_seq. reflexivity. Qed.

(** The shape of a window read off a container dataset. *)
Lemma getitem_chunk_shape ds nl nc nb y0 y1 x0 x1 :
  ds_shape ds = (nl, nc, nb) ->
  0 <= y0 < y1 -> y1 <= Z.of_nat nl -> 0 <= x0 < x1 -> x1 <= Z.of_nat nc ->
  exists t, getitem_chunk (Some (DNode (HDataset ds))) y0 y1 x0 x1 = Ok t /\
            shape3 (A3 t) = Some (Z.to_nat (y1 - y0), Z.to_nat (x1 - x0), nb).
Proof.
  intros Hs Hy Hy1 Hx Hx1. unfold getitem_chunk. cbn [view3 res_bind]. rewrite Hs.
  eexists. split; [reflexivity|].
  rewrite !slice_range_in by lia.
  destruct (Z.to_nat (y1 - y0)) as [|h] eqn:Eh; [lia|].
  destruct (Z.to_nat (x1 - x0)) as [|w] eqn:Ew; [lia|].
  cbn [seq map shape3 hd length]. rewrite !length_map, !length_seq, tabulate_length.
  reflexivity.
Qed.

(** ** The traversal claims *)

Section Traversal.
Context `{P : Platform} `{C : Codec}.

(** C1. Over a raster of 250 lines and 250 columns, a chunk-mode cursor with
    chunk shape (100, 100) asks the handle, call after call, for exactly the
    nine tiles of [tiles_250], in row-major order; their sizes are 100 x 100,
    100 x 100, 100 x 50, 100 x 100, 100 x 100, 100 x 50, 50 x 100, 50 x 100
    and 50 x 50; [complete] is false before the first call and after each of
    the first eight, and true after the ninth. On a container dataset of
    that extent every one of the nine reads returns an array of the tile's
    shape. *)
Theorem chunk_sweep_250 (m : machine) :
  lines (hy_obj m) = Some 250 -> columns (hy_obj m) = Some 250 ->
  let s0 := {| it := iterate (PStr "chunk") (Some (100, 100)); mach := m |} in
  map tile_size tiles_250 =
    [(100, 100); (100, 100); (100, 50); (100, 100); (100, 100); (100, 50);
     (50, 100); (50, 100); (50, 50)] /\
  complete (it s0) = false /\
  (forall k t, nth_error tiles_250 k = Some t ->
     read_next (calls k s0) =
       (let (r, m') := run_read (tile_call t) (mach (calls k s0)) in
        (r, {| it := it (calls (S k) s0); mach := m' |})) /\
     complete (it (calls (S k) s0)) = (k =? 8)%nat) /\
  (forall f ds nb,
     file_type (hy_obj m) = PStr "neon" ->
     h5py_File (file_name (hy_obj m)) "r" = Ok f ->
     reflectance f (base_key (hy_obj m)) = Ok (HDataset ds) ->
     ds_shape ds = (250%nat, 250%nat, nb) ->
     forall k t, nth_error tiles_250 k = Some t ->
       exists a, fst (read_next (calls k s0)) = Ok a /\
                 shape3 a = Some (Z.to_nat (fst (tile_size t)),
                                  Z.to_nat (snd (tile_size t)), nb)).
Proof.
  intros Hl Hc. cbv zeta.
  set (s0 := {| it := iterate (PStr "chunk") (Some (100, 100)); mach := m |}).
  assert (Hstep : forall k t, nth_error tiles_250 k = Some t ->
     read_next (calls k s0) =
       (let (r, m') := run_read (tile_call t) (mach (calls k s0)) in
        (r, {| it := it (calls (S k) s0); mach := m' |})) /\
     complete (it (calls (S k) s0)) = (k =? 8)%nat).
  { intros k t Hk.
    assert (Hit : it (calls (S k) s0) =
                  plan_iter (Some 250) (Some 250) (bands (hy_obj m)) (S k) (it s0)).
    { rewrite (calls_it (S k) s0). cbv zeta. cbn [s0 mach]. rewrite Hl, Hc. reflexivity. }
    rewrite Hit. split.
    - apply (read_next_calls k s0). cbv zeta. cbn [s0 mach]. rewrite Hl, Hc.
      do 9 (destruct k as [|k]; [injection Hk as <-; vm_compute; reflexivity|]).
      destruct k; discriminate Hk.
    - do 9 (destruct k as [|k]; [vm_compute; reflexivity|]). destruct k; discriminate Hk. }
  split; [reflexivity|]. split; [reflexivity|]. split; [exact Hstep|].
  intros f ds nb Hft Hf Hd Hs k t Hk.
  destruct (Hstep k t Hk) as [Hr _]. rewrite Hr.
  pose proof (calls_meta k s0) as [Hm _]. cbn [s0 mach] in Hm.
  set (mk := mach (calls k s0)) in *.
  assert (Hft' : file_type (hy_obj mk) = PStr "neon").
  { meta_attr file_type Hm. congruence. }
  assert (Hf' : h5py_File (file_name (hy_obj mk)) "r" = Ok f).
  { meta_attr file_name Hm. congruence. }
  assert (Hd' : reflectance f (base_key (hy_obj mk)) = Ok (HDataset ds)).
  { meta_attr base_key Hm. congruence. }
  assert (Hsel : exists a, direct_select (tile_call t) (Some (DNode (HDataset ds))) = Ok a /\
                 shape3 a = Some (Z.to_nat (fst (tile_size t)),
                                  Z.to_nat (snd (tile_size t)), nb)).
  { do 9 (destruct k as [|k];
          [injection Hk as <-; cbn [tile_call tile_size fst snd direct_select];
           edestruct (getitem_chunk_shape ds 250 250 nb) as (a & Ha & Hsh);
           [exact Hs | | | | | rewrite Ha; eexists; split; [reflexivity | exact Hsh]]; lia |]).
    destruct k; discriminate Hk. }
  destruct Hsel as (a & Ha & Hsh).
  rewrite (run_read_neon _ mk f (HDataset ds) a Hft' Hf' Hd' Ha).
  exists a. split; [|exact Hsh].
  cbn [fst]. do 9 (destruct k as [|k]; [injection Hk as <-; reflexivity|]).
  destruct k; discriminate Hk.
Qed.

(** C6. In line, column or band mode over a dimension of size [n > 0] the
    counter starts at -1; the [k]-th call of [read_next], for [1 <= k <= n],
    asks the handle for the unit of index [k - 1] and leaves the counter
    there, and [complete] is true after it exactly when [k = n]. *)
Theorem axis_traversal (a : axis) (cs : option (Z * Z)) (m : machine) (n : Z) (k : nat) :
  axis_size a (hy_obj m) = Some n -> 0 < n -> (1 <= k)%nat -> Z.of_nat k <= n ->
  let s0 := {| it := Iterator_init (PStr (axis_tag a)) cs; mach := m |} in
  let before := calls (k - 1) s0 in
  let after := calls k s0 in
  axis_counter a (it s0) = -1 /\
  read_next before =
    (let (r, m') := run_read (axis_call a (Z.of_nat k - 1)) (mach before) in
     (r, {| it := it after; mach := m' |})) /\
  axis_counter a (it after) = Z.of_nat k - 1 /\
  (complete (it after) = true <-> Z.of_nat k = n).
Proof.
  intros Hn Hpos Hk1 Hkn. cbv zeta.
  rewrite axis_size_dim in Hn.
  destruct k as [|j]; [lia|]. replace (S j - 1)%nat with j by lia.
  set (s0 := {| it := Iterator_init (PStr (axis_tag a)) cs; mach := m |}).
  set (nl := lines (hy_obj m)) in *. set (nc := columns (hy_obj m)) in *.
  set (nb := bands (hy_obj m)) in *.
  destruct (plan_iter_axis a nl nc nb n cs j Hn Hpos) as [Hc Hd]; [lia|].
  destruct (plan_iter_axis a nl nc nb n cs (S j) Hn Hpos) as [Hc' Hd']; [lia|].
  split; [destruct a; reflexivity|].
  assert (Hit : it (calls (S j) s0) = plan_iter nl nc nb (S j) (Iterator_init (PStr (axis_tag a)) cs))
    by apply (calls_it (S j) s0).
  split; [|split].
  - destruct (plan_axis a nl nc nb n (plan_iter nl nc nb j (Iterator_init (PStr (axis_tag a)) cs)))
      as (Hf & _); auto.
    { rewrite (proj1 (plan_iter_keeps_mode _ _ _ _ _)). reflexivity. }
    rewrite Hit. cbn [plan_iter].
    apply (read_next_calls j s0). cbv zeta. cbn [s0 it mach]. fold nl nc nb.
    rewrite Hc in Hf.
    replace (Z.of_nat (S j) - 1) with (Z.of_nat j - 1 + 1) by lia.
    rewrite <- Hf. apply surjective_pairing.
  - rewrite Hit. exact Hc'.
  - rewrite Hit, Hd'. apply Z.eqb_eq.
Qed.

(** C7. After any number [k] of [read_next] calls, in any mode, [reset]
    returns the cursor to the state [__init__] gives it (all counters -1,
    [complete] false) without touching the handle, and the next [read_next]
    produces what the first [read_next] of a fresh cursor produced. *)
Theorem reset_restores_first_unit (by' : pyval) (cs : option (Z * Z)) (m : machine) (k : nat) :
  let s0 := {| it := Iterator_init by' cs; mach := m |} in
  let sk := calls k s0 in
  reset sk = (Ok tt, {| it := Iterator_init by' cs; mach := mach sk |}) /\
  fst (read_next (snd (reset sk))) = fst (read_next s0).
Proof.
  cbv zeta. set (s0 := {| it := Iterator_init by' cs; mach := m |}).
  assert (Hr : reset (calls k s0) =
               (Ok tt, {| it := Iterator_init by' cs; mach := mach (calls k s0) |})).
  { pose proof (calls_it k s0) as Hit. cbv zeta in Hit.
    destruct (plan_iter_keeps_mode (lines (hy_obj (mach s0))) (columns (hy_obj (mach s0)))
                (bands (hy_obj (mach s0))) k (it s0)) as [Hb Hc].
    rewrite <- Hit in Hb, Hc. cbn [s0 it Iterator_init by_ chunk_size] in Hb, Hc.
    rewrite <- Hb, <- Hc. reflexivity. }
  split; [exact Hr|].
  rewrite Hr. cbn [snd]. unfold s0.
  apply read_next_meta_only. symmetry. apply (calls_meta k s0).
Qed.

End Traversal.

(** ** Byte swapping *)

Lemma byteswap_elem_involutive e : byteswap_elem (byteswap_elem e) = e.
Proof. apply rev_involutive. Qed.

Lemma map_involutive {A} (f : A -> A) :
  (forall x, f (f x) = x) -> forall l, map f (map f l) = l.
Proof.
  intros Hf l. rewrite map_map. induction l as [|x l IH]; cbn; [reflexivity|].
  rewrite Hf, IH. reflexivity.
Qed.

Lemma byteswap_involutive a : byteswap (byteswap a) = a.
Proof.
  destruct a; cbn [byteswap nd_map]; f_equal.
  - apply map_involutive, byteswap_elem_involutive.
  - apply map_involutive, map_involutive, byteswap_elem_involutive.
  - apply map_involutive, map_involutive, map_involutive, byteswap_elem_involutive.
Qed.

(** ** Mask selection *)

Lemma select_row_cols {A} (pre row : list A) (mrow : list bool) :
  length row = length mrow ->
  map Some (select_row row mrow) =
  map (nth_error (pre ++ row)) (true_cols (length pre) mrow).
Proof.
  revert pre mrow. induction row as [|x row IH]; intros pre [|b mrow] Hlen;
    try discriminate; [reflexivity|].
  cbn [select_row true_cols]. injection Hlen as Hlen.
  specialize (IH (pre ++ [x])%list mrow Hlen).
  rewrite <- app_assoc, length_app in IH. cbn [length app] in IH.
  replace (length pre + 1)%nat with (S (length pre)) in IH by lia.
  destruct b; cbn [map]; rewrite IH; [|reflexivity].
  f_equal. rewrite nth_error_app2 by lia. rewrite Nat.sub_diag. reflexivity.
Qed.

Lemma select_row_length {A} (row : list A) (mrow : list bool) :
  length row = length mrow ->
  length (select_row row mrow) = length (filter (fun b : bool => b) mrow).
Proof.
  revert mrow. induction row as [|x row IH]; intros [|b mrow] Hlen;
    try discriminate; [reflexivity|].
  injection Hlen as Hlen. cbn [select_row filter].
  destruct b; cbn [length]; rewrite IH by assumption; reflexivity.
Qed.

Lemma same_shape2_cons {A B} (r : list A) a (mr : list B) m :
  same_shape2 (r :: a) (mr :: m) = true ->
  length r = length mr /\ same_shape2 a m = true.
Proof.
  cbn [same_shape2]. intros H. apply andb_true_iff in H as [H1 H2].
  apply Nat.eqb_eq in H1. auto.
Qed.

(** The selected entries are the band's entries at the mask's true
    positions, in row-major order. *)
Lemma select_rows_positions (pre band : array2) (mk : list (list bool)) :
  same_shape2 band mk = true ->
  map Some (select_rows band mk) =
  map (entry (pre ++ band)) (true_positions (length pre) mk).
Proof.
  revert pre mk. induction band as [|row band IH]; intros pre [|mrow mk] Hs;
    try discriminate; [reflexivity|].
  apply same_shape2_cons in Hs as [Hlen Hs].
  cbn [select_rows true_positions]. rewrite !map_app.
  specialize (IH (pre ++ [row])%list mk Hs).
  rewrite <- app_assoc, length_app in IH. cbn [length app] in IH.
  replace (length pre + 1)%nat with (S (length pre)) in IH by lia.
  rewrite IH. f_equal.
  rewrite (select_row_cols [] row mrow Hlen). cbn [app length].
  rewrite map_map. apply map_ext. intros c. unfold entry. cbn [fst snd].
  rewrite nth_error_app2 by lia. rewrite Nat.sub_diag. reflexivity.
Qed.

Lemma select_rows_length (band : array2) (mk : list (list bool)) :
  same_shape2 band mk = true ->
  length (select_rows band mk) = count_true mk.
Proof.
  unfold count_true. revert mk. induction band as [|row band IH]; intros [|mrow mk] Hs;
    try discriminate; [reflexivity|].
  apply same_shape2_cons in Hs as [Hlen Hs].
  cbn [select_rows concat]. rewrite length_app, filter_app, length_app.
  rewrite IH by assumption. rewrite select_row_length by assumption. reflexivity.
Qed.

(** ** Nearest wavelength *)

Lemma fold_max_is_max a x : is_max (x :: a) (fold_left Z.max a x).
Proof.
  revert x. induction a as [|y a IH]; intros x; cbn [fold_left].
  - split; [left; reflexivity|]. intros z [<-|[]]. lia.
  - destruct (IH (Z.max x y)) as [Hin Hub]. split.
    + destruct Hin as [Hin|Hin]; [|right; right; exact Hin].
      rewrite <- Hin.
      destruct (Z.max_spec x y) as [[_ ->]|[_ ->]]; [right; left|left]; reflexivity.
    + intros z [<-|[<-|Hz]].
      * specialize (Hub (Z.max x y) (or_introl eq_refl)). lia.
      * specialize (Hub (Z.max x y) (or_introl eq_refl)). lia.
      * apply Hub. right. exact Hz.
Qed.

Lemma fold_min_is_min a x : is_min (x :: a) (fold_left Z.min a x).
Proof.
  revert x. induction a as [|y a IH]; intros x; cbn [fold_left].
  - split; [left; reflexivity|]. intros z [<-|[]]. lia.
  - destruct (IH (Z.min x y)) as [Hin Hlb]. split.
    + destruct Hin as [Hin|Hin]; [|right; right; exact Hin].
      rewrite <- Hin.
      destruct (Z.min_spec x y) as [[_ ->]|[_ ->]]; [left|right; left]; reflexivity.
    + intros z [<-|[<-|Hz]].
      * specialize (Hlb (Z.min x y) (or_introl eq_refl)). lia.
      * specialize (Hlb (Z.min x y) (or_introl eq_refl)). lia.
      * apply Hlb. right. exact Hz.
Qed.

Lemma is_max_unique a x y : is_max a x -> is_max a y -> x = y.
Proof. intros [H1 H2] [H3 H4]. specialize (H2 y H3). specialize (H4 x H1). lia. Qed.

Lemma is_min_unique a x y : is_min a x -> is_min a y -> x = y.
Proof. intros [H1 H2] [H3 H4]. specialize (H2 y H3). specialize (H4 x H1). lia. Qed.

Lemma wave_max_is_max a hi : is_max a hi -> wave_max (WArray a) = Ok hi.
Proof.
  intros H. destruct a as [|x a]; [destruct H as [[] _]|].
  cbn [wave_max]. f_equal. eapply is_max_unique; [apply fold_max_is_max | exact H].
Qed.

Lemma wave_min_is_min a lo : is_min a lo -> wave_min (WArray a) = Ok lo.
Proof.
  intros H. destruct a as [|x a]; [destruct H as [[] _]|].
  cbn [wave_min]. f_equal. eapply is_min_unique; [apply fold_min_is_min | exact H].
Qed.

(** [argmin_from] continues a scan that has seen [pre] and holds its first
    minimum, [best], found at [bi]. *)
Lemma argmin_from_first pre l best bi :
  (bi < length pre)%nat -> nth bi pre 0 = best ->
  (forall j, (j < length pre)%nat -> best <= nth j pre 0) ->
  (forall j, (j < bi)%nat -> best < nth j pre 0) ->
  let all := (pre ++ l)%list in
  let k := argmin_from best bi (length pre) l in
  (k < length all)%nat /\
  (forall j, (j < length all)%nat -> nth k all 0 <= nth j all 0) /\
  (forall j, (j < k)%nat -> nth k all 0 < nth j all 0).
Proof.
  revert pre best bi. induction l as [|x l IH]; intros pre best bi Hbi Hbest Hmin Hfirst.
  - cbv zeta. cbn [argmin_from]. rewrite app_nil_r. rewrite Hbest. auto.
  - cbv zeta. cbn [argmin_from].
    replace (pre ++ x :: l)%list with ((pre ++ [x]) ++ l)%list by (rewrite <- app_assoc; reflexivity).
    assert (Hlen : length (pre ++ [x])%list = S (length pre))
      by (rewrite length_app; cbn; lia).
    rewrite <- Hlen.
    assert (Hold : forall j, (j < length pre)%nat -> nth j (pre ++ [x])%list 0 = nth j pre 0)
      by (intros j Hj; apply app_nth1; exact Hj).
    assert (Hnew : nth (length pre) (pre ++ [x])%list 0 = x)
      by (rewrite app_nth2 by lia; rewrite Nat.sub_diag; reflexivity).
    destruct (x <? best) eqn:E.
    + apply Z.ltb_lt in E. apply IH.
      * lia.
      * exact Hnew.
      * intros j Hj. rewrite Hlen in Hj.
        destruct (Nat.eq_dec j (length pre)) as [->|Hne]; [rewrite Hnew; lia|].
        rewrite Hold by lia. specialize (Hmin j ltac:(lia)). lia.
      * intros j Hj. rewrite Hold by lia. specialize (Hmin j Hj). lia.
    + apply Z.ltb_ge in E. apply IH.
      * lia.
      * rewrite Hold by lia. exact Hbest.
      * intros j Hj. rewrite Hlen in Hj.
        destruct (Nat.eq_dec j (length pre)) as [->|Hne]; [rewrite Hnew; lia|].
        rewrite Hold by lia. apply Hmin. lia.
      * intros j Hj. rewrite Hold by lia. apply Hfirst. exact Hj.
Qed.

Lemma argmin_first l :
  l <> [] ->
  exists k, argmin l = Ok k /\ (k < length l)%nat /\
    (forall j, (j < length l)%nat -> nth k l 0 <= nth j l 0) /\
    (forall j, (j < k)%nat -> nth k l 0 < nth j l 0).
Proof.
  destruct l as [|x l]; [contradiction|]. intros _.
  exists (argmin_from x 0%nat 1%nat l). split; [reflexivity|].
  apply (argmin_from_first [x] l x 0%nat); cbn [length nth]; try lia; try reflexivity.
  intros [|j] Hj; [lia|]. cbn in Hj. lia.
Qed.

Lemma nth_abs_diff a wave k :
  (k < length a)%nat ->
  nth k (map (fun x => Z.abs (x - wave)) a) 0 = distance a wave k.
Proof.
  intros Hk. unfold distance.
  rewrite (nth_indep _ 0 (Z.abs (0 - wave))) by (rewrite length_map; exact Hk).
  apply (map_nth (fun x => Z.abs (x - wave))).
Qed.

Lemma argmin_nearest a wave :
  a <> [] ->
  exists k, argmin (map (fun x => Z.abs (x - wave)) a) = Ok k /\ nearest a wave k.
Proof.
  intros Ha.
  destruct (argmin_first (map (fun x => Z.abs (x - wave)) a)) as (k & Hk & Hlt & Hmin & Hfst).
  { destruct a; [contradiction | discriminate]. }
  rewrite length_map in *.
  exists k. split; [exact Hk|]. split; [exact Hlt|]. split.
  - intros j Hj. rewrite <- !nth_abs_diff by assumption. apply Hmin. exact Hj.
  - intros j Hj. rewrite <- !nth_abs_diff by lia. apply Hfst. exact Hj.
Qed.

(** ** The claims on the handle *)

Section Handle.
Context `{P : Platform} `{C : Codec}.

Lemma file_name_unbound (ft anc ext : pyval) (m : machine) :
  load_name [("self", PObj "self"); ("file_type", ft); ("anc_path", anc); ("ext", ext)]
            "file_name" m = (Raise NameError, m).
Proof. reflexivity. Qed.

Lemma read_file_name_error (ft anc ext : pyval) (m : machine) :
  read_file ft anc ext m = (Raise NameError, m).
Proof.
  unfold read_file. unfold bind at 1. rewrite file_name_unbound. reflexivity.
Qed.


(** The masked and the unmasked [get_band] differ in their last step only. *)
Lemma get_band_masked index name m band :
  name <> "" ->
  fst (get_band index None m) = Ok band ->
  fst (get_band index (Some name) m) = apply_mask (Some name) (mask (hy_obj m)) band.
Proof.
  intros Hne Hb.
  change (get_band index None m) with (run_read (CallBand index None) m) in Hb.
  change (get_band index (Some name) m) with (run_read (CallBand index (Some name)) m).
  rewrite run_read_protocol in *.
  assert (Hstep : forall msk, backend_step (CallBand index msk) = backend_step (CallBand index None))
    by reflexivity.
  rewrite Hstep.
  pose proof (load_data_meta "r" m) as [H1 _].
  destruct (load_data "r" m) as [[[]|e] m1]; cbn [fst snd] in *; [|discriminate].
  destruct (backend_step (CallBand index None) (hy_obj m1)) as [x|e]; cbn [fst] in *; [|discriminate].
  pose proof (close_data_meta m1) as [H2 _].
  destruct (close_data m1) as [[[]|e] m2]; cbn [fst snd mask_of] in *; [|discriminate].
  meta_attr mask H1. meta_attr mask H2. rewrite E, E0.
  destruct x as [a|]; cbn [finish] in *; [|discriminate].
  unfold apply_mask at 1 in Hb. cbn [truthy] in Hb. congruence.
Qed.

(** C2. Whatever its arguments and whatever the handle holds, [read_file]
    raises [NameError] at its first statement, where it reads the unbound
    name [file_name]: neither backend opener runs and the handle is left as
    it was, so a freshly constructed handle keeps every constructor
    default. *)
Theorem read_file_raises (file_type_ anc_path_ ext : pyval) (m : machine) :
  read_file file_type_ anc_path_ ext m = (Raise NameError, m) /\
  fst (read_file file_type_ anc_path_ ext fresh_store) = Raise NameError /\
  hy_obj (snd (read_file file_type_ anc_path_ ext fresh_store)) = HyTools_init.
Proof.
  rewrite !read_file_name_error. auto.
Qed.


(** C3, as the code has it. A read operation that returns has released the
    data handle; one that fails partway may leave it acquired. Either way
    the call changes nothing else: metadata, mask registry and output are as
    before the call. *)
Theorem read_releases_on_return (c : read_call) (m : machine) :
  let after := snd (run_read c m) in
  (is_ok (fst (run_read c m)) = true -> released (hy_obj after)) /\
  clear_handle (hy_obj after) = clear_handle (hy_obj m) /\
  mask (hy_obj after) = mask (hy_obj m) /\
  stdout after = stdout m.
Proof.
  cbv zeta. split; [apply run_read_released|].
  destruct (run_read_meta c m) as [H1 H2].
  split; [congruence|]. split; [|congruence].
  meta_attr mask H1. congruence.
Qed.

(** C4. With a non-empty array of wavelengths whose least and greatest
    entries are [lo] and [hi]: for [lo <= wave <= hi] the wavelength read
    returns [get_band] of the first band at minimum absolute distance to
    [wave]; outside that interval it prints the out-of-range message and
    returns no result. With wavelengths 450, 550, 650, 750 the query 560
    resolves to band 1 and the query 1000 to no result. *)
Theorem nearest_band_resolution (m : machine) (a : list Z) (lo hi wave : Z)
    (msk : option string) :
  wavelengths (hy_obj m) = WArray a -> is_min a lo -> is_max a hi ->
  (lo <= wave <= hi ->
     exists k, nearest a wave k /\
       wave_to_band wave m = (Ok (Some k), m) /\
       get_wave wave msk m =
         (let (r, m') := get_band (Z.of_nat k) msk m in (res_map Some r, m'))) /\
  (wave < lo \/ hi < wave ->
     wave_to_band wave m = (Ok None, printed "Input wavelength outside image range!" m) /\
     get_wave wave msk m =
       (Ok None, printed "Input wavelength outside wavelength range!" m)) /\
  (a = [450; 550; 650; 750] ->
     fst (wave_to_band 560 m) = Ok (Some 1%nat) /\
     get_wave 560 msk m = (let (r, m') := get_band 1 msk m in (res_map Some r, m')) /\
     fst (wave_to_band 1000 m) = Ok None /\
     fst (get_wave 1000 msk m) = Ok None).
Proof.
  intros Hw Hlo Hhi.
  assert (Hmax := wave_max_is_max a hi Hhi). assert (Hmin := wave_min_is_min a lo Hlo).
  split; [|split].
  - intros Hin.
    destruct (argmin_nearest a wave) as (k & Hk & Hnear).
    { destruct Hlo as [Hin' _]. destruct a; [destruct Hin' | discriminate]. }
    exists k. split; [exact Hnear|].
    assert (Htest : (wave >? hi) || (wave <? lo) = false).
    { apply orb_false_iff. split; [rewrite Z.gtb_ltb|]; apply Z.ltb_ge; lia. }
    split.
    + unfold wave_to_band. norm0. rewrite Hw, Hmax, Hmin, Htest. norm0.
      cbn [abs_diff]. rewrite Hk. reflexivity.
    + unfold get_wave. norm0. rewrite Hw, Hmax, Hmin, Htest. norm0.
      cbn [abs_diff]. rewrite Hk. destruct (get_band (Z.of_nat k) msk m) as [[b|e] m']; reflexivity.
  - intros Hout.
    assert (Htest : (wave >? hi) || (wave <? lo) = true).
    { apply orb_true_iff. destruct Hout; [right | left; rewrite Z.gtb_ltb]; apply Z.ltb_lt; lia. }
    split.
    + unfold wave_to_band. norm0. rewrite Hw, Hmax, Hmin, Htest. reflexivity.
    + unfold get_wave. norm0. rewrite Hw, Hmax, Hmin, Htest. reflexivity.
  - intros ->. clear Hmax Hmin.
    repeat split.
    + unfold wave_to_band. norm0. rewrite Hw. reflexivity.
    + unfold get_wave. norm0. rewrite Hw. cbn [wave_max wave_min fold_left]. 
      change ((560 >? Z.max (Z.max (Z.max 450 550) 650) 750) || (560 <? Z.min (Z.min (Z.min 450 550) 650) 750)) with false.
      norm0. cbn [abs_diff map]. 
      change (argmin _) with (@Ok nat 1%nat). norm0.
      change (Z.of_nat 1) with 1.
      destruct (get_band 1 msk m) as [[b|e] m']; reflexivity.
    + unfold wave_to_band. norm0. rewrite Hw. reflexivity.
    + unfold get_wave. norm0. rewrite Hw. reflexivity.
Qed.

(** C5. On the flat-binary backend a read returns what the codec selected
    from the mapped payload, as it is when the declared byte order is the
    platform's and with every element byte-swapped once when it is not; on
    the container backend it returns the selection as it is, whatever the
    declared order. Swapping twice would give back the stored bytes. *)
Theorem byte_order_correction (c : read_call) (m : machine) :
  (forall mm raw,
     file_type (hy_obj m) = PStr "envi" ->
     np_memmap (file_name (hy_obj m)) (dtype (hy_obj m)) "r"
               (shape (hy_obj m)) (offset (hy_obj m)) = Ok mm ->
     codec_select c (Some (DMemmap mm)) (interleave (hy_obj m)) = Ok raw ->
     (endianness (hy_obj m) = PStr sys_byteorder ->
        fst (run_read c m) = apply_mask (mask_of c) (mask (hy_obj m)) raw) /\
     (endianness (hy_obj m) <> PStr sys_byteorder ->
        fst (run_read c m) = apply_mask (mask_of c) (mask (hy_obj m)) (byteswap raw))) /\
  (forall f d raw,
     file_type (hy_obj m) = PStr "neon" ->
     h5py_File (file_name (hy_obj m)) "r" = Ok f ->
     reflectance f (base_key (hy_obj m)) = Ok d ->
     direct_select c (Some (DNode d)) = Ok raw ->
     fst (run_read c m) = apply_mask (mask_of c) (mask (hy_obj m)) raw) /\
  (forall a, byteswap (byteswap a) = a).
Proof.
  split; [|split].
  - intros mm raw Hft Hmm Hraw.
    rewrite (run_read_envi c m mm raw Hft Hmm Hraw). cbn [fst]. unfold decode, native_order.
    split; intros He.
    + rewrite He, py_eq_str_refl. reflexivity.
    + destruct (py_eq_str (endianness (hy_obj m)) sys_byteorder) eqn:E; [|reflexivity].
      apply py_eq_str_true in E. contradiction.
  - intros f d raw Hft Hf Hd Hraw.
    rewrite (run_read_neon c m f d raw Hft Hf Hd Hraw). reflexivity.
  - apply byteswap_involutive.
Qed.

(** C8, as the code has it. When [get_band] is called with a non-empty name
    registered for a mask of the band's shape, the result is one-dimensional,
    its length is the number of True entries of the mask, and its entries are
    those of the unmasked band at the mask's True positions in row-major
    order. *)
Theorem masked_band_row_major (index : Z) (name : string) (m : machine)
    (mk : list (list bool)) (band : array2) :
  name <> "" ->
  mask (hy_obj m) !! name = Some (A2 mk) ->
  fst (get_band index None m) = Ok (A2 band) ->
  same_shape2 band mk = true ->
  exists v,
    fst (get_band index (Some name) m) = Ok (A1 v) /\
    length v = count_true mk /\
    map Some v = map (entry band) (true_positions 0 mk).
Proof.
  intros Hne Hreg Hband Hshape.
  exists (select_rows band mk). split; [|split].
  - rewrite (get_band_masked index name m (A2 band) Hne Hband).
    unfold apply_mask. change (default "" (Some name)) with name. cbn [truthy].
    destruct (String.eqb name "") eqn:E; [apply String.eqb_eq in E; contradiction|].
    cbn [negb]. rewrite Hreg. cbn [boolean_index]. rewrite Hshape. reflexivity.
  - apply select_rows_length, Hshape.
  - apply (select_rows_positions [] band mk Hshape).
Qed.

End Handle.

(** ** Pixel sets *)







Section Pixels.
Context `{P : Platform}.


End Pixels.

(** ** The claims on the example scene *)

Abbreviation scene_get_band := (get_band (P := scene_platform) (C := spec_codec)).
Abbreviation scene_get_pixels := (get_pixels (P := scene_platform) (C := spec_codec)).
Abbreviation scene_read_next := (read_next (P := scene_platform) (C := spec_codec)).
Abbreviation scene_read_file := (read_file (P := scene_platform) (C := spec_codec)).
Abbreviation scene_calls := (calls (P := scene_platform) (C := spec_codec)).

Lemma chunk_sweep_250_witness :
  lines (hy_obj tiles_store) = Some 250 /\
  columns (hy_obj tiles_store) = Some 250 /\
  complete (it (scene_calls 8 chunk_cursor)) = false /\
  complete (it (scene_calls 9 chunk_cursor)) = true /\
  (exists a, fst (scene_read_next (scene_calls 2 chunk_cursor)) = Ok a /\
             shape3 a = Some (100, 50, 1)%nat) /\
  (exists a, fst (scene_read_next (scene_calls 8 chunk_cursor)) = Ok a /\
             shape3 a = Some (50, 50, 1)%nat).
Proof.
  split; [reflexivity|]. split; [reflexivity|].
  destruct (chunk_sweep_250 (P := scene_platform) (C := spec_codec) tiles_store
              eq_refl eq_refl) as (_ & _ & Hstep & Hshape).
  specialize (Hshape (scene_file (scene_dataset 250 250 1)) (scene_dataset 250 250 1) 1%nat
                eq_refl eq_refl eq_refl eq_refl).
  split; [exact (proj2 (Hstep 7%nat _ eq_refl))|].
  split; [exact (proj2 (Hstep 8%nat _ eq_refl))|].
  split; [exact (Hshape 2%nat _ eq_refl) | exact (Hshape 8%nat _ eq_refl)].
Defined.

Lemma axis_traversal_witness :
  axis_size Line (hy_obj (neon_store ∅)) = Some 4 /\
  axis_counter Line (it (scene_calls 4 line_cursor)) = 3 /\
  (complete (it (scene_calls 4 line_cursor)) = true <-> 4 = 4) /\
  (complete (it (scene_calls 3 line_cursor)) = true <-> 3 = 4).
Proof.
  split; [reflexivity|].
  destruct (axis_traversal (P := scene_platform) (C := spec_codec) Line None (neon_store ∅) 4 4
              eq_refl ltac:(lia) ltac:(lia) ltac:(lia)) as (_ & _ & Hc & Hd).
  destruct (axis_traversal (P := scene_platform) (C := spec_codec) Line None (neon_store ∅) 4 3
              eq_refl ltac:(lia) ltac:(lia) ltac:(lia)) as (_ & _ & _ & Hd').
  split; [exact Hc|]. split; [exact Hd | exact Hd'].
Defined.




(** C3, as stated, fails: a band index outside the dataset makes the read
    raise after the container file was opened, and the handle still holds
    the file and the dataset afterwards. *)
Lemma failed_read_keeps_handle :
  fst (scene_get_band 7 None (neon_store ∅)) = Raise IndexError /\
  is_some (data (hy_obj (snd (scene_get_band 7 None (neon_store ∅))))) = true /\
  is_some (hdf_obj (hy_obj (snd (scene_get_band 7 None (neon_store ∅))))) = true /\
  ~ released (hy_obj (snd (scene_get_band 7 None (neon_store ∅)))).
Proof.
  assert (H : is_some (data (hy_obj (snd (scene_get_band 7 None (neon_store ∅))))) = true)
    by (vm_compute; reflexivity).
  split; [vm_compute; reflexivity|]. split; [exact H|].
  split; [vm_compute; reflexivity|].
  intros [Hd _]. rewrite Hd in H. discriminate H.
Qed.

Lemma read_releases_on_return_witness :
  is_ok (fst (scene_get_band 1 None (neon_store ∅))) = true /\
  released (hy_obj (snd (scene_get_band 1 None (neon_store ∅)))) /\
  mask (hy_obj (snd (scene_get_band 1 None (neon_store ∅)))) = mask (hy_obj (neon_store ∅)).
Proof.
  destruct (read_releases_on_return (P := scene_platform) (C := spec_codec)
              (CallBand 1 None) (neon_store ∅)) as (H1 & _ & H2 & _).
  assert (Hok : is_ok (fst (scene_get_band 1 None (neon_store ∅))) = true)
    by (vm_compute; reflexivity).
  split; [exact Hok|]. split; [exact (H1 Hok) | exact H2].
Defined.

Lemma nearest_band_resolution_witness :
  is_min [450; 550; 650; 750] 450 /\ is_max [450; 550; 650; 750] 750 /\
  (exists k, nearest [450; 550; 650; 750] 560 k /\
     wave_to_band 560 (neon_store ∅) = (Ok (Some k), neon_store ∅)) /\
  fst (wave_to_band 560 (neon_store ∅)) = Ok (Some 1%nat) /\
  fst (get_wave (P := scene_platform) (C := spec_codec) 1000 None (neon_store ∅)) = Ok None.
Proof.
  assert (Hlo : is_min [450; 550; 650; 750] 450).
  { split; [simpl; auto|]. simpl. intros y Hy. lia. }
  assert (Hhi : is_max [450; 550; 650; 750] 750).
  { split; [simpl; auto 6|]. simpl. intros y Hy. lia. }
  destruct (nearest_band_resolution (P := scene_platform) (C := spec_codec)
              (neon_store ∅) [450; 550; 650; 750] 450 750 560 None eq_refl Hlo Hhi)
    as (Hin & _ & Hex).
  destruct (Hin ltac:(lia)) as (k & Hk & Hw & _).
  destruct (Hex eq_refl) as (H560 & _ & _ & H1000).
  split; [exact Hlo|]. split; [exact Hhi|].
  split; [exists k; split; assumption|]. split; [exact H560 | exact H1000].
Defined.

Lemma byte_order_correction_witness :
  fst (scene_get_band 1 None (envi_store BIL "big")) =
    Ok (byteswap (A2 (tabulate 4 (fun l => tabulate 5 (fun c =>
                        stored_at (scene_payload BIL) BIL l c 1))))) /\
  fst (scene_get_band 1 None (envi_store BIL "little")) =
    Ok (A2 (tabulate 4 (fun l => tabulate 5 (fun c =>
              stored_at (scene_payload BIL) BIL l c 1)))) /\
  fst (scene_get_band 1 None (neon_store ∅)) = Ok (A2 (scene_band 1)).
Proof.
  split; [|split].
  - destruct (byte_order_correction (P := scene_platform) (C := spec_codec)
                (CallBand 1 None) (envi_store BIL "big")) as (H & _ & _).
    destruct (H _ _ eq_refl eq_refl eq_refl) as (_ & Hswap).
    apply Hswap. discriminate.
  - destruct (byte_order_correction (P := scene_platform) (C := spec_codec)
                (CallBand 1 None) (envi_store BIL "little")) as (H & _ & _).
    destruct (H _ _ eq_refl eq_refl eq_refl) as (Hsame & _).
    apply Hsame. reflexivity.
  - destruct (byte_order_correction (P := scene_platform) (C := spec_codec)
                (CallBand 1 None) (neon_store ∅)) as (_ & H & _).
    exact (H _ _ _ eq_refl eq_refl eq_refl eq_refl).
Defined.

(** C8, as stated, fails for the empty name: a mask registered under it is
    never applied, because [if mask:] takes the empty string for no mask. *)
Lemma empty_name_is_not_masked :
  mask (hy_obj unnamed_mask_store) !! "" = Some (A2 diagonal_mask) /\
  fst (scene_get_band 0 (Some "") unnamed_mask_store) =
    fst (scene_get_band 0 None unnamed_mask_store) /\
  forall v, fst (scene_get_band 0 (Some "") unnamed_mask_store) <> Ok (A1 v).
Proof.
  split; [vm_compute; reflexivity|]. split; [reflexivity|].
  intros v H. vm_compute in H. discriminate H.
Qed.

Lemma masked_band_row_major_witness :
  "no_data" <> "" /\
  mask (hy_obj masked_store) !! "no_data" = Some (A2 diagonal_mask) /\
  fst (scene_get_band 0 None masked_store) = Ok (A2 (scene_band 0)) /\
  same_shape2 (scene_band 0) diagonal_mask = true /\
  exists v, fst (scene_get_band 0 (Some "no_data") masked_store) = Ok (A1 v) /\
            length v = 4%nat /\
            map Some v = map (entry (scene_band 0)) [(0, 0); (1, 1); (2, 2); (3, 3)]%nat.
Proof.
  assert (H1 : "no_data" <> "") by discriminate.
  assert (H2 : mask (hy_obj masked_store) !! "no_data" = Some (A2 diagonal_mask))
    by (vm_compute; reflexivity).
  assert (H3 : fst (scene_get_band 0 None masked_store) = Ok (A2 (scene_band 0)))
    by (vm_compute; reflexivity).
  assert (H4 : same_shape2 (scene_band 0) diagonal_mask = true) by (vm_compute; reflexivity).
  repeat (split; [assumption|]).
  exact (masked_band_row_major (P := scene_platform) (C := spec_codec)
           0 "no_data" _ diagonal_mask _ H1 H2 H3 H4).
Defined.


(** * Further properties of the handle and the cursor *)

Ltac attrs_all :=
  cbn [on_handle hy_obj stdout set_data set_hdf_obj set_mask_attr set_bad_bands
       clear_handle
       anc_path ancillary bad_bands bands base_key base_name brdf byte_order
       columns crs data dtype endianness file_name file_type fwhm hdf_obj
       interleave lines map_info mask no_data offset projection shape topo
       ulx uly wavelength_units wavelengths] in *.

Lemma truthy_name name : name <> "" -> truthy (Some name) = true.
Proof.
  intros H. cbn [truthy]. destruct (String.eqb name "") eqn:E; [|reflexivity].
  apply String.eqb_eq in E. contradiction.
Qed.

Lemma nth_error_tabulate {A} n (f : nat -> A) i :
  (i < n)%nat -> nth_error (tabulate n f) i = Some (f i).
Proof.
  intros Hi. unfold tabulate. rewrite nth_error_map.
  rewrite nth_error_seq. destruct (Nat.ltb_spec i n); [reflexivity | lia].
Qed.

Lemma entry_tabulate n k (f : nat -> nat -> elem) i j :
  (i < n)%nat -> (j < k)%nat ->
  entry (tabulate n (fun i => tabulate k (f i))) (i, j) = Some (f i j).
Proof.
  intros Hi Hj. unfold entry. cbn [fst snd].
  rewrite nth_error_tabulate by assumption. apply nth_error_tabulate. assumption.
Qed.

Lemma norm_index_nat n i : (i < n)%nat -> norm_index n (Z.of_nat i) = Ok i.
Proof. intros H. rewrite norm_index_in by lia. rewrite Nat2Z.id. reflexivity. Qed.

Lemma combine_firstn {A B} (la : list A) (lb : list B) :
  combine la lb =
  combine (firstn (Nat.min (length la) (length lb)) la)
          (firstn (Nat.min (length la) (length lb)) lb).
Proof.
  revert lb. induction la as [|a la IH]; intros [|b lb]; cbn; try reflexivity.
  f_equal. apply IH.
Qed.

Lemma nth_error_map_seq {A} (f : nat -> A) a n i :
  (i < n)%nat -> nth_error (map f (seq a n)) i = Some (f (a + i)%nat).
Proof.
  intros Hi. rewrite nth_error_map, nth_error_seq.
  destruct (Nat.ltb_spec i n); [reflexivity | lia].
Qed.

(** ** Chunk traversal as a tiling *)

Lemma clip_min a b : (if a >=? b then b else a) = Z.min a b.
Proof. destruct (a >=? b) eqn:E; [apply Z.geb_le in E | rewrite Z.geb_leb in E; apply Z.leb_gt in E]; lia. Qed.

Lemma clip_hit a b : (Z.min a b =? b) = (a >=? b).
Proof.
  destruct (a >=? b) eqn:E.
  - apply Z.geb_le in E. apply Z.eqb_eq. lia.
  - rewrite Z.geb_leb in E. apply Z.leb_gt in E. apply Z.eqb_neq. lia.
Qed.

(** One chunk-mode step of the cursor arithmetic, from any position. *)
Lemma plan_chunk_step L C R S nb i :
  by_ i = PStr "chunk" -> chunk_size i = Some (R, S) ->
  let x0 := if current_column i =? -1 then current_column i + 1 else current_column i + S in
  let y0 := if current_column i =? -1 then current_line i + 1 else current_line i in
  let x := if x0 >=? C then 0 else x0 in
  let y := if x0 >=? C then y0 + R else y0 in
  plan (Some L) (Some C) nb i =
  (Ok (Some (CallChunk x (Z.min (x + S) C) y (Z.min (y + R) L))),
   {| chunk_size := Some (R, S); by_ := PStr "chunk";
      current_column := x; current_line := y; current_band := current_band i;
      complete := complete i || ((y + R >=? L) && (x + S >=? C)) |}).
Proof.
  intros Hby Hcs. cbv zeta. unfold plan. norm. rewrite Hby. eval_tests. norm.
  destruct (current_column i =? -1) eqn:E1;
    repeat (progress (rewrite ?Hcs; norm; it_attrs));
    destruct (_ >=? C) eqn:E2;
    repeat (progress (rewrite ?Hcs; norm; it_attrs));
    rewrite !clip_min, !clip_hit;
    destruct ((_ >=? L) && (_ >=? C));
    repeat (progress (rewrite ?Hcs; norm; it_attrs));
    rewrite ?orb_true_r, ?orb_false_r, ?Hby, ?Hcs.
  all: unfold set_complete, set_current_line, set_current_column; it_attrs;
    rewrite Hby, Hcs; reflexivity.
Qed.

Lemma last_tile_test n step size r :
  0 < step -> (n - 1) * step < size <= n * step -> 0 <= r < n ->
  (r * step + step >=? size) = (r =? n - 1).
Proof.
  intros Hs Hn Hr. destruct (r =? n - 1) eqn:E.
  - apply Z.eqb_eq in E. subst r. apply Z.geb_le. lia.
  - apply Z.eqb_neq in E. rewrite Z.geb_leb. apply Z.leb_gt. nia.
Qed.

Lemma chunk_cursor_at_eq R S x y r c d d' b :
  x = c * S -> y = r * R -> b = -1 -> d = d' ->
  {| chunk_size := Some (R, S); by_ := PStr "chunk";
     current_column := x; current_line := y; current_band := b; complete := d |} =
  chunk_cursor_at R S r c d'.
Proof. intros -> -> -> ->. reflexivity. Qed.

Lemma tile_call_eq L C R S x y r c :
  x = c * S -> y = r * R ->
  @Ok (option read_call) (Some (CallChunk x (Z.min (x + S) C) y (Z.min (y + R) L))) =
  Ok (Some (tile_call (tile_at L C R S r c))).
Proof. intros -> ->. reflexivity. Qed.

Section Tiling.
Variables (L C R S nr nc : Z) (nb : option Z).
Hypothesis (HR : 0 < R) (HS : 0 < S).
Hypothesis (Hnr : (nr - 1) * R < L <= nr * R) (Hnc : (nc - 1) * S < C <= nc * S).

Let it0 := iterate (PStr "chunk") (Some (R, S)).

Lemma plan_iter_chunk (k : nat) : forall r c,
  Z.of_nat k = r * nc + c -> 0 <= r < nr -> 0 <= c < nc ->
  plan (Some L) (Some C) nb (plan_iter (Some L) (Some C) nb k it0) =
  (Ok (Some (tile_call (tile_at L C R S r c))),
   chunk_cursor_at R S r c ((r =? nr - 1) && (c =? nc - 1))).
Proof.
  induction k as [|k IH]; intros r c Hk Hr Hc.
  - assert (r = 0) by nia. assert (c = 0) by nia. subst r c.
    cbn [plan_iter]. unfold it0. rewrite (plan_chunk_step L C R S nb) by reflexivity.
    cbn [iterate Iterator_init current_column current_line current_band complete].
    change (-1 =? -1) with true. cbv iota. change (-1 + 1) with 0.
    destruct (0 >=? C) eqn:E0; [apply Z.geb_le in E0; nia|].
    apply (f_equal2 pair); [apply tile_call_eq; lia|].
    apply chunk_cursor_at_eq; try lia.
    cbn [orb]. rewrite <- (last_tile_test nr R L 0), <- (last_tile_test nc S C 0) by lia.
    reflexivity.
  - cbn [plan_iter].
    assert (Hprev : exists r' c', Z.of_nat k = r' * nc + c' /\ 0 <= r' < nr /\ 0 <= c' < nc /\
              ((c' = c - 1 /\ r' = r /\ 0 < c) \/ (c = 0 /\ c' = nc - 1 /\ r' = r - 1))).
    { destruct (Z.eq_dec c 0) as [->|Hne].
      - exists (r - 1), (nc - 1). repeat split; try nia; right; lia.
      - exists r, (c - 1). repeat split; try nia; left; lia. }
    destruct Hprev as (r' & c' & Hk' & Hr' & Hc' & Hcase).
    rewrite (IH r' c' Hk' Hr' Hc'). cbn [snd].
    rewrite (plan_chunk_step L C R S nb) by reflexivity.
    cbn [chunk_cursor_at current_column current_line current_band complete].
    destruct (c' * S =? -1) eqn:E1; [apply Z.eqb_eq in E1; nia|].
    assert (Hflag : (r' =? nr - 1) && (c' =? nc - 1) = false).
    { apply andb_false_iff. destruct Hcase as [(-> & -> & Hc0)|(-> & -> & ->)].
      - right. apply Z.eqb_neq. lia.
      - left. apply Z.eqb_neq. lia. }
    rewrite Hflag. cbn [orb].
    destruct Hcase as [(-> & -> & Hc0)|(-> & -> & ->)].
    + destruct ((c - 1) * S + S >=? C) eqn:E2; [apply Z.geb_le in E2; nia|].
      apply (f_equal2 pair); [apply tile_call_eq; lia|].
      apply chunk_cursor_at_eq; try lia.
      replace ((c - 1) * S + S) with (c * S) by lia.
      rewrite (last_tile_test nr R L r), (last_tile_test nc S C c) by lia. reflexivity.
    + destruct ((nc - 1) * S + S >=? C) eqn:E2;
        [|rewrite Z.geb_leb in E2; apply Z.leb_gt in E2; lia].
      apply (f_equal2 pair); [apply tile_call_eq; lia|].
      apply chunk_cursor_at_eq; try lia.
      replace ((r - 1) * R + R) with (r * R) by lia.
      replace (0 + S) with (0 * S + S) by lia.
      rewrite (last_tile_test nr R L r), (last_tile_test nc S C 0) by lia. reflexivity.
Qed.
End Tiling.

Section TilingFacts.
Context `{P : Platform} `{C0 : Codec}.

(** X1. Chunk traversal ([Iterator.read_next], by = "chunk") on a raster of
    [L] lines and [C] columns with chunks of [R] rows and [S] columns, where
    [nr] and [nc] are the numbers of tile rows and tile columns: counted from
    a fresh cursor, call number [r * nc + c] (from zero) reads exactly the
    tile of tile row [r] and tile column [c], clipped at the raster edge;
    the tile is never empty and lies inside the raster; and the cursor is
    complete after that call exactly when the tile is the last one. *)
Theorem chunk_sweep_tiles (m : machine) (L C R S nr nc r c : Z) :
  lines (hy_obj m) = Some L -> columns (hy_obj m) = Some C ->
  0 < R -> 0 < S ->
  (nr - 1) * R < L <= nr * R -> (nc - 1) * S < C <= nc * S ->
  0 <= r < nr -> 0 <= c < nc ->
  let s0 := {| it := iterate (PStr "chunk") (Some (R, S)); mach := m |} in
  let k := Z.to_nat (r * nc + c) in
  read_next (calls k s0) =
    (let (res, m') := run_read (tile_call (tile_at L C R S r c)) (mach (calls k s0)) in
     (res, {| it := it (calls (Datatypes.S k) s0); mach := m' |})) /\
  (complete (it (calls (Datatypes.S k) s0)) = true <-> r = nr - 1 /\ c = nc - 1) /\
  (let '(x0, x1, y0, y1) := tile_at L C R S r c in
   0 <= x0 < x1 /\ x1 <= C /\ 0 <= y0 < y1 /\ y1 <= L).
Proof.
  intros Hl Hc HR HS Hnr Hnc Hr Hcc. cbv zeta.
  set (s0 := {| it := iterate (PStr "chunk") (Some (R, S)); mach := m |}).
  set (k := Z.to_nat (r * nc + c)).
  assert (Hk : Z.of_nat k = r * nc + c) by (unfold k; nia).
  pose proof (plan_iter_chunk L C R S nr nc (bands (hy_obj m)) HR HS Hnr Hnc k r c Hk Hr Hcc)
    as Hplan.
  assert (Hit : it (calls (Datatypes.S k) s0) =
                chunk_cursor_at R S r c ((r =? nr - 1) && (c =? nc - 1))).
  { rewrite (calls_it (Datatypes.S k) s0). cbv zeta. cbn [s0 mach it plan_iter].
    rewrite Hl, Hc, Hplan. reflexivity. }
  split; [|split].
  - rewrite Hit. apply (read_next_calls k s0). cbv zeta. cbn [s0 mach it].
    rewrite Hl, Hc. exact Hplan.
  - rewrite Hit. cbn [chunk_cursor_at complete].
    rewrite andb_true_iff, !Z.eqb_eq. reflexivity.
  - unfold tile_at. nia.
Qed.

(** X2. Chunk traversal does not stop by itself: after the [nr * nc] calls
    that cover the raster the cursor is complete, and one more [read_next]
    still calls [get_chunk], for a window that starts at line [nr * R], at or
    beyond the last line of the raster; the cursor stays complete. *)
Theorem chunk_sweep_overrun (m : machine) (L C R S nr nc : Z) :
  lines (hy_obj m) = Some L -> columns (hy_obj m) = Some C ->
  0 < R -> 0 < S -> 0 < nr -> 0 < nc ->
  (nr - 1) * R < L <= nr * R -> (nc - 1) * S < C <= nc * S ->
  let s0 := {| it := iterate (PStr "chunk") (Some (R, S)); mach := m |} in
  let k := Z.to_nat (nr * nc) in
  complete (it (calls k s0)) = true /\
  read_next (calls k s0) =
    (let (res, m') := run_read (CallChunk 0 (Z.min S C) (nr * R) L) (mach (calls k s0)) in
     (res, {| it := it (calls (Datatypes.S k) s0); mach := m' |})) /\
  L <= nr * R /\
  complete (it (calls (Datatypes.S k) s0)) = true.
Proof.
  intros Hl Hc HR HS Hnr0 Hnc0 Hnr Hnc. cbv zeta.
  set (s0 := {| it := iterate (PStr "chunk") (Some (R, S)); mach := m |}).
  assert (Hk : Z.to_nat (nr * nc) = Datatypes.S (Z.to_nat ((nr - 1) * nc + (nc - 1)))) by nia.
  rewrite Hk. set (k := Z.to_nat ((nr - 1) * nc + (nc - 1))).
  assert (Hk' : Z.of_nat k = (nr - 1) * nc + (nc - 1)) by (unfold k; nia).
  pose proof (plan_iter_chunk L C R S nr nc (bands (hy_obj m)) HR HS Hnr Hnc k
                (nr - 1) (nc - 1) Hk' ltac:(lia) ltac:(lia)) as Hplan.
  rewrite !Z.eqb_refl in Hplan. cbn [andb] in Hplan.
  assert (Hit : it (calls (Datatypes.S k) s0) = chunk_cursor_at R S (nr - 1) (nc - 1) true).
  { rewrite (calls_it (Datatypes.S k) s0). cbv zeta. cbn [s0 mach it plan_iter].
    rewrite Hl, Hc, Hplan. reflexivity. }
  assert (Hnext : plan (Some L) (Some C) (bands (hy_obj m))
                    (chunk_cursor_at R S (nr - 1) (nc - 1) true) =
                  (Ok (Some (CallChunk 0 (Z.min S C) (nr * R) L)),
                   chunk_cursor_at R S nr 0 true)).
  { rewrite (plan_chunk_step L C R S) by reflexivity.
    cbn [chunk_cursor_at current_column current_line current_band complete orb].
    destruct ((nc - 1) * S =? -1) eqn:E1; [apply Z.eqb_eq in E1; nia|].
    destruct ((nc - 1) * S + S >=? C) eqn:E2;
      [|rewrite Z.geb_leb in E2; apply Z.leb_gt in E2; lia].
    apply (f_equal2 pair).
    - do 2 f_equal. replace ((nr - 1) * R + R) with (nr * R) by lia.
      f_equal; lia.
    - apply chunk_cursor_at_eq; lia. }
  assert (Hit' : it (calls (Datatypes.S (Datatypes.S k)) s0) = chunk_cursor_at R S nr 0 true).
  { rewrite (calls_it (Datatypes.S (Datatypes.S k)) s0). cbv zeta.
    cbn [s0 mach it]. rewrite Hl, Hc. cbn [plan_iter].
    rewrite Hplan. cbn [snd]. rewrite Hnext. reflexivity. }
  split; [rewrite Hit; reflexivity|]. split; [|split; [lia|rewrite Hit'; reflexivity]].
  rewrite Hit'. apply (read_next_calls (Datatypes.S k) s0). cbv zeta. cbn [s0 mach it plan_iter].
  rewrite Hl, Hc, Hplan. cbn [snd]. exact Hnext.
Qed.

(** [complete] is only ever set by [read_next]. *)
Lemma plan_complete_sticky nl nc nb i :
  complete i = true -> complete (snd (plan nl nc nb i)) = true.
Proof.
  intros H. unfold plan. norm.
  repeat (split_inner; norm; it_attrs); first [reflexivity | assumption].
Qed.

(** X3. Any number of [read_next] calls leaves the handle's metadata, the
    printed output, the traversal mode and the chunk size as they were, and a
    cursor that is complete stays complete. *)
Theorem traversal_keeps_handle_and_mode (k : nat) (s : frame) :
  clear_handle (hy_obj (mach (calls k s))) = clear_handle (hy_obj (mach s)) /\
  stdout (mach (calls k s)) = stdout (mach s) /\
  by_ (it (calls k s)) = by_ (it s) /\
  chunk_size (it (calls k s)) = chunk_size (it s) /\
  (complete (it s) = true -> complete (it (calls k s)) = true).
Proof.
  destruct (calls_meta k s) as [H1 H2].
  pose proof (calls_it k s) as Hit. cbv zeta in Hit.
  destruct (plan_iter_keeps_mode (lines (hy_obj (mach s))) (columns (hy_obj (mach s)))
              (bands (hy_obj (mach s))) k (it s)) as [Hb Hc].
  rewrite <- Hit in Hb, Hc.
  repeat split; auto.
  intros Hdone. rewrite Hit. clear - Hdone.
  induction k as [|k IH]; cbn [plan_iter]; [assumption|].
  apply plan_complete_sticky, IH.
Qed.

(** X4. With a mode that is none of "line", "column", "band" and "chunk",
    [read_next] assigns no subset: it raises UnboundLocalError at its return
    and changes neither the cursor nor the handle. *)
Theorem unknown_mode_raises (s : frame) :
  py_eq_str (by_ (it s)) "line" = false ->
  py_eq_str (by_ (it s)) "column" = false ->
  py_eq_str (by_ (it s)) "band" = false ->
  py_eq_str (by_ (it s)) "chunk" = false ->
  read_next s = (Raise UnboundLocalError, s).
Proof.
  intros H1 H2 H3 H4. rewrite read_next_plan. cbv zeta. unfold plan. norm.
  rewrite H1, H2, H3, H4. norm. destruct s; reflexivity.
Qed.
End TilingFacts.

(** ** Masks and the life of the data object *)

Section MaskFacts.
Context `{P : Platform} `{C : Codec}.

(** The mask step of [get_band] comes after the read and the release. *)
Lemma get_band_mask_last index msk m :
  snd (get_band index msk m) = snd (get_band index None m) /\
  fst (get_band index msk m) =
  res_bind (fst (get_band index None m)) (apply_mask msk (mask (hy_obj m))).
Proof.
  change (get_band index msk m) with (run_read (CallBand index msk) m).
  change (get_band index None m) with (run_read (CallBand index None) m).
  rewrite !run_read_protocol.
  assert (Hstep : backend_step (CallBand index msk) = backend_step (CallBand index None))
    by reflexivity.
  rewrite Hstep.
  pose proof (load_data_meta "r" m) as [H1 _].
  destruct (load_data "r" m) as [[[]|e] m1]; cbn [fst snd] in *; [|auto].
  destruct (backend_step (CallBand index None) (hy_obj m1)) as [x|e]; cbn [fst snd]; [|auto].
  pose proof (close_data_meta m1) as [H2 _].
  destruct (close_data m1) as [[[]|e] m2]; cbn [fst snd mask_of] in *; [|auto].
  meta_attr mask H1. meta_attr mask H2. rewrite E, E0.
  split; [reflexivity|].
  destruct x as [a|]; cbn [finish res_bind]; [|reflexivity].
  unfold apply_mask at 2. cbn [truthy res_bind]. reflexivity.
Qed.

(** An unmasked read does not look at the mask registry. *)
Lemma get_band_ignores_masks index reg m :
  fst (get_band index None (on_handle (set_mask_attr reg) m)) = fst (get_band index None m).
Proof.
  change (get_band index None) with (run_read (CallBand index None)).
  rewrite !run_read_protocol. destruct m as [h o].
  unfold load_data, close_data, backend_step. norm. attrs_all.
  repeat (split_inner; norm; attrs_all; try reflexivity; try congruence).
Qed.

(** X5. [set_mask] followed by [get_band]: once a mask is registered under a
    non-empty name, a read of a band with that name returns the band indexed
    by that mask; the unmasked read is unchanged, and so are reads with the
    other registered names. *)
Theorem set_mask_then_get_band (index : Z) (name : string) (mk : nd bool) (m : machine)
    (band : array2) :
  name <> "" ->
  fst (get_band index None m) = Ok (A2 band) ->
  let m' := snd (set_mask mk name m) in
  fst (set_mask mk name m) = Ok tt /\
  fst (get_band index (Some name) m') = boolean_index band mk /\
  fst (get_band index None m') = Ok (A2 band) /\
  (forall other mk', other <> name -> other <> "" ->
     mask (hy_obj m) !! other = Some mk' ->
     fst (get_band index (Some other) m') = boolean_index band mk').
Proof.
  intros Hne Hband. cbv zeta.
  change (set_mask mk name m) with
    (@Ok unit tt, on_handle (set_mask_attr (<[name := mk]> (mask (hy_obj m)))) m).
  cbn [fst snd]. split; [reflexivity|].
  assert (Hun : fst (get_band index None
                       (on_handle (set_mask_attr (<[name := mk]> (mask (hy_obj m)))) m)) =
                Ok (A2 band)) by (rewrite get_band_ignores_masks; exact Hband).
  split; [|split; [exact Hun|]].
  - rewrite (proj2 (get_band_mask_last index (Some name) _)), Hun. cbn [res_bind].
    unfold apply_mask. rewrite (truthy_name name Hne).
    change (default "" (Some name)) with name. attrs_all.
    rewrite lookup_insert_eq. reflexivity.
  - intros other mk' Ho Ho' Hreg.
    rewrite (proj2 (get_band_mask_last index (Some other) _)), Hun. cbn [res_bind].
    unfold apply_mask. rewrite (truthy_name other Ho').
    change (default "" (Some other)) with other. attrs_all.
    rewrite lookup_insert_ne by congruence. rewrite Hreg. reflexivity.
Qed.

(** X6. [get_band] with a non-empty mask name that is not registered raises
    KeyError, after the read and the release: the handle is left exactly
    as the unmasked read leaves it, released. *)
Theorem unknown_mask_name_raises (index : Z) (name : string) (m : machine) :
  name <> "" ->
  mask (hy_obj m) !! name = None ->
  is_ok (fst (get_band index None m)) = true ->
  fst (get_band index (Some name) m) = Raise KeyError /\
  snd (get_band index (Some name) m) = snd (get_band index None m) /\
  released (hy_obj (snd (get_band index (Some name) m))).
Proof.
  intros Hne Hreg Hok.
  destruct (get_band_mask_last index (Some name) m) as [Hs Hf].
  split; [|split].
  - rewrite Hf. destruct (fst (get_band index None m)) as [b|e]; [|discriminate Hok].
    cbn [res_bind]. unfold apply_mask. rewrite (truthy_name name Hne).
    change (default "" (Some name)) with name. rewrite Hreg. reflexivity.
  - exact Hs.
  - rewrite Hs. apply (run_read_released (CallBand index None) m Hok).
Qed.

(** X7. [close_data] called twice: on a flat-binary ("envi") handle the
    second call does what the first did; on a container ("neon") handle the
    first call releases it and the second raises AttributeError, as does
    a first call when no container is open. *)
Theorem close_data_twice (m : machine) :
  (file_type (hy_obj m) = PStr "envi" ->
     close_data m = (Ok tt, on_handle (set_data None) m) /\
     close_data (snd (close_data m)) = close_data m) /\
  (file_type (hy_obj m) = PStr "neon" ->
     (hdf_obj (hy_obj m) = None -> close_data m = (Raise AttributeError, m)) /\
     (forall f, hdf_obj (hy_obj m) = Some f ->
        close_data m = (Ok tt, on_handle clear_handle m) /\
        close_data (snd (close_data m)) = (Raise AttributeError, snd (close_data m)))).
Proof.
  split; intros Hft.
  - assert (H : forall m', file_type (hy_obj m') = PStr "envi" ->
                  close_data m' = (Ok tt, on_handle (set_data None) m')).
    { intros m' Hft'. unfold close_data. known_type Hft'. reflexivity. }
    rewrite (H m Hft). split; [reflexivity|]. cbn [snd].
    rewrite (H (on_handle (set_data None) m) Hft). reflexivity.
  - assert (Hnone : forall m', file_type (hy_obj m') = PStr "neon" ->
                  hdf_obj (hy_obj m') = None -> close_data m' = (Raise AttributeError, m')).
    { intros m' Hft' Hh. unfold close_data. known_type Hft'. rewrite Hh. reflexivity. }
    split; [apply Hnone, Hft|].
    intros f Hf.
    assert (Hc : close_data m = (Ok tt, on_handle clear_handle m)).
    { unfold close_data. known_type Hft. rewrite Hf. norm0. attrs. reflexivity. }
    rewrite Hc. split; [reflexivity|]. cbn [snd].
    apply Hnone; [exact Hft | reflexivity].
Qed.

(** X8. How [load_data] fails: an error of [np.memmap] or of [h5py.File]
    leaves the handle unchanged; a container that opens but lacks the
    reflectance dataset under the base key raises with the open container
    already stored in [hdf_obj]; and a file type that is neither "envi" nor
    "neon" loads nothing and raises nothing. *)
Theorem load_data_failure (mode : string) (m : machine) :
  (forall e, file_type (hy_obj m) = PStr "envi" ->
     np_memmap (file_name (hy_obj m)) (dtype (hy_obj m)) mode
               (shape (hy_obj m)) (offset (hy_obj m)) = Raise e ->
     load_data mode m = (Raise e, m)) /\
  (forall e, file_type (hy_obj m) = PStr "neon" ->
     h5py_File (file_name (hy_obj m)) "r" = Raise e ->
     load_data mode m = (Raise e, m)) /\
  (forall f e, file_type (hy_obj m) = PStr "neon" ->
     h5py_File (file_name (hy_obj m)) "r" = Ok f ->
     reflectance f (base_key (hy_obj m)) = Raise e ->
     load_data mode m = (Raise e, on_handle (set_hdf_obj (Some f)) m)) /\
  (py_eq_str (file_type (hy_obj m)) "envi" = false ->
   py_eq_str (file_type (hy_obj m)) "neon" = false ->
     load_data mode m = (Ok tt, m)).
Proof.
  repeat split.
  - intros e Hft He. unfold load_data. known_type Hft. rewrite He. reflexivity.
  - intros e Hft He. unfold load_data. known_type Hft. rewrite He. reflexivity.
  - intros f e Hft Hf He. unfold load_data, reflectance in *. known_type Hft. rewrite Hf.
    norm0. cbv beta iota delta [res_bind] in He.
    destruct (hdf_getitem f (base_key (hy_obj m))) as [g|e1]; norm0;
      [|injection He as <-; reflexivity].
    destruct (hdf_getitem g (PStr "Reflectance")) as [r|e2]; norm0;
      [|injection He as <-; reflexivity].
    rewrite He. reflexivity.
  - intros H1 H2. unfold load_data. norm0. rewrite H1, H2. reflexivity.
Qed.
End MaskFacts.

(** ** The access paths on a container *)

Section AccessPaths.
Context `{P : Platform} `{C : Codec}.

(** X9. On a container ("neon") handle the four access paths agree: the
    element at line [l], column [c] and band [b] of the dataset is entry
    (l, c) of [get_band b], entry (c, b) of [get_line l], entry (l, b) of
    [get_column c] and entry [b] of the one row of [get_pixels [l] [c]]. *)
Theorem access_paths_agree (m : machine) (f : hdf_node) (ds : dataset)
    (nl nc nb l c b : nat) :
  file_type (hy_obj m) = PStr "neon" ->
  h5py_File (file_name (hy_obj m)) "r" = Ok f ->
  reflectance f (base_key (hy_obj m)) = Ok (HDataset ds) ->
  ds_shape ds = (nl, nc, nb) ->
  (l < nl)%nat -> (c < nc)%nat -> (b < nb)%nat ->
  exists band line column pixel,
    fst (get_band (Z.of_nat b) None m) = Ok (A2 band) /\
    fst (get_line (Z.of_nat l) m) = Ok (A2 line) /\
    fst (get_column (Z.of_nat c) m) = Ok (A2 column) /\
    fst (get_pixels [Z.of_nat l] [Z.of_nat c] m) = Ok (A2 [pixel]) /\
    entry band (l, c) = Some (ds_at ds l c b) /\
    entry line (c, b) = Some (ds_at ds l c b) /\
    entry column (l, b) = Some (ds_at ds l c b) /\
    nth_error pixel b = Some (ds_at ds l c b).
Proof.
  intros Hft Hf Hd Hs Hl Hc Hb.
  exists (tabulate nl (fun l => tabulate nc (fun c => ds_at ds l c b))),
         (tabulate nc (fun c => tabulate nb (fun b => ds_at ds l c b))),
         (tabulate nl (fun l => tabulate nb (fun b => ds_at ds l c b))),
         (tabulate nb (fun b => ds_at ds l c b)).
  repeat split.
  - change (get_band (Z.of_nat b) None m) with (run_read (CallBand (Z.of_nat b) None) m).
    erewrite run_read_neon by
      (try eassumption; cbn [direct_select]; unfold getitem_band; cbn [view3 res_bind];
       rewrite Hs, (norm_index_nat nb b Hb); reflexivity).
    reflexivity.
  - change (get_line (Z.of_nat l) m) with (run_read (CallLine (Z.of_nat l)) m).
    erewrite run_read_neon by
      (try eassumption; cbn [direct_select]; unfold getitem_line; cbn [view3 res_bind];
       rewrite Hs, (norm_index_nat nl l Hl); reflexivity).
    reflexivity.
  - change (get_column (Z.of_nat c) m) with (run_read (CallColumn (Z.of_nat c)) m).
    erewrite run_read_neon by
      (try eassumption; cbn [direct_select]; unfold getitem_column; cbn [view3 res_bind];
       rewrite Hs, (norm_index_nat nc c Hc); reflexivity).
    reflexivity.
  - change (get_pixels [Z.of_nat l] [Z.of_nat c] m)
      with (run_read (CallPixels [Z.of_nat l] [Z.of_nat c]) m).
    erewrite run_read_neon by
      (try eassumption; cbn [direct_select combine read_pairs]; unfold getitem_pixel;
       cbn [view3 res_bind];
       rewrite Hs, (norm_index_nat nl l Hl), (norm_index_nat nc c Hc); reflexivity).
    reflexivity.
  - apply (entry_tabulate nl nc (fun l c => ds_at ds l c b)); assumption.
  - apply (entry_tabulate nc nb (fun c b => ds_at ds l c b)); assumption.
  - apply (entry_tabulate nl nb (fun l b => ds_at ds l c b)); assumption.
  - apply nth_error_tabulate. assumption.
Qed.

(** X10. [get_pixels] on a container handle pairs lines and columns with
    [zip]: when the two lists differ in length the surplus of the longer one
    is ignored, without an error. *)
Theorem get_pixels_truncates (lines_ columns_ : list Z) (m : machine) :
  file_type (hy_obj m) = PStr "neon" ->
  let n := Nat.min (length lines_) (length columns_) in
  get_pixels lines_ columns_ m = get_pixels (firstn n lines_) (firstn n columns_) m.
Proof.
  intros Hft. cbv zeta.
  change (get_pixels ?a ?b m) with (run_read (CallPixels a b) m).
  rewrite !run_read_protocol.
  pose proof (load_data_meta "r" m) as [Hm _].
  destruct (load_data "r" m) as [[[]|e] m1]; [|reflexivity]. cbn [snd] in Hm.
  meta_attr file_type Hm. rewrite Hft in E.
  assert (Hstep : backend_step (CallPixels lines_ columns_) (hy_obj m1) =
                  backend_step (CallPixels
                     (firstn (Nat.min (length lines_) (length columns_)) lines_)
                     (firstn (Nat.min (length lines_) (length columns_)) columns_))
                     (hy_obj m1)).
  { unfold backend_step. rewrite <- E. eval_tests. cbv iota. cbn [direct_select].
    rewrite <- combine_firstn. reflexivity. }
  rewrite Hstep. reflexivity.
Qed.
End AccessPaths.

Section ChunkAndWave.
Context `{P : Platform} `{C : Codec}.

(** X11. [get_chunk] on a container handle, for a window inside the raster:
    the chunk has [line_end - line_start] rows, and its entry (i, j, b) is
    the dataset's element at line [line_start + i], column [col_start + j]
    and band [b]. *)
Theorem chunk_entries (m : machine) (f : hdf_node) (ds : dataset) (nl nc nb : nat)
    (col_start col_end line_start line_end : Z) :
  file_type (hy_obj m) = PStr "neon" ->
  h5py_File (file_name (hy_obj m)) "r" = Ok f ->
  reflectance f (base_key (hy_obj m)) = Ok (HDataset ds) ->
  ds_shape ds = (nl, nc, nb) ->
  0 <= line_start <= line_end -> line_end <= Z.of_nat nl ->
  0 <= col_start <= col_end -> col_end <= Z.of_nat nc ->
  exists chunk,
    fst (get_chunk col_start col_end line_start line_end m) = Ok (A3 chunk) /\
    length chunk = Z.to_nat (line_end - line_start) /\
    forall i j b,
      (i < Z.to_nat (line_end - line_start))%nat ->
      (j < Z.to_nat (col_end - col_start))%nat -> (b < nb)%nat ->
      entry3 chunk i j b =
        Some (ds_at ds (Z.to_nat line_start + i) (Z.to_nat col_start + j) b).
Proof.
  intros Hft Hf Hd Hs Hy Hy1 Hx Hx1.
  eexists. split; [|split].
  - change (get_chunk col_start col_end line_start line_end m)
      with (run_read (CallChunk col_start col_end line_start line_end) m).
    erewrite run_read_neon by
      (try eassumption; cbn [direct_select]; unfold getitem_chunk; cbn [view3 res_bind];
       rewrite Hs, !slice_range_in by lia; reflexivity).
    reflexivity.
  - rewrite length_map, length_seq. reflexivity.
  - intros i j b Hi Hj Hb. unfold entry3.
    rewrite nth_error_map_seq by assumption.
    rewrite nth_error_map_seq by assumption.
    apply nth_error_tabulate. assumption.
Qed.

(** X12. An exact wavelength resolves to its own band: when [wave] is the
    centre of band [k] and of no earlier band, [wave_to_band] answers [k]
    without printing, and [get_wave] is [get_band k]. *)
Theorem exact_wavelength_match (m : machine) (a : list Z) (wave : Z) (k : nat)
    (msk : option string) :
  wavelengths (hy_obj m) = WArray a ->
  nth_error a k = Some wave ->
  (forall j, (j < k)%nat -> nth_error a j <> Some wave) ->
  wave_to_band wave m = (Ok (Some k), m) /\
  get_wave wave msk m =
    (let (r, m') := get_band (Z.of_nat k) msk m in (res_map Some r, m')).
Proof.
  intros Hw Hk Hfirst.
  assert (Hlen : (k < length a)%nat) by (apply nth_error_Some; congruence).
  assert (Hne : a <> []) by (destruct a; [destruct k; discriminate | discriminate]).
  destruct a as [|x a']; [contradiction|]. set (a := x :: a') in *.
  pose proof (fold_max_is_max a' x) as Hhi. pose proof (fold_min_is_min a' x) as Hlo.
  fold a in Hhi, Hlo.
  assert (Hin : In wave a) by (eapply nth_error_In; eassumption).
  destruct (argmin_nearest a wave Hne) as (k' & Hk' & Hlt & Hmin & Hfst).
  assert (Hd0 : distance a wave k = 0).
  { unfold distance. rewrite (nth_error_nth a k 0 Hk). lia. }
  assert (Hd' : distance a wave k' = 0).
  { specialize (Hmin k Hlen). unfold distance in *. lia. }
  assert (Hkk : k' = k).
  { destruct (Nat.lt_trichotomy k' k) as [Hlt'|[->|Hgt]]; [|reflexivity|].
    - exfalso. apply (Hfirst k' Hlt').
      unfold distance in Hd'.
      assert (nth k' a 0 = wave) by lia.
      rewrite <- H. apply nth_error_nth'. exact Hlt.
    - exfalso. specialize (Hfst k Hgt). lia. }
  subst k'.
  assert (Htest : (wave >? fold_left Z.max a' x) || (wave <? fold_left Z.min a' x) = false).
  { apply orb_false_iff. split; [rewrite Z.gtb_ltb|]; apply Z.ltb_ge.
    - apply (proj2 Hhi). exact Hin.
    - apply (proj2 Hlo). exact Hin. }
  split.
  - unfold wave_to_band. norm0. rewrite Hw. cbn [a wave_max wave_min]. norm0.
    rewrite Htest. norm0. cbn [abs_diff]. fold a. rewrite Hk'. reflexivity.
  - unfold get_wave. norm0. rewrite Hw. cbn [a wave_max wave_min]. norm0.
    rewrite Htest. norm0. cbn [abs_diff]. fold a. rewrite Hk'.
    destruct (get_band (Z.of_nat k) msk m) as [[b|e] m']; reflexivity.
Qed.
End ChunkAndWave.

(** ** Bad bands, band arithmetic and callbacks *)

Lemma region_scan_from wavelength bad_regions acc :
  fold_left (fun bad region =>
               ((wavelength >=? fst region) && (wavelength <=? snd region)) || bad)
            bad_regions acc = true <->
  acc = true \/ in_some_region wavelength bad_regions.
Proof.
  revert acc. induction bad_regions as [|r rs IH]; intros acc; cbn [fold_left].
  - split; [auto|]. intros [H|(r & [] & _)]. exact H.
  - rewrite IH. rewrite orb_true_iff, andb_true_iff, Z.geb_le, Z.leb_le. split.
    + intros [[[H1 H2]|H]|(r' & Hin & Hr')]; auto.
      * right. exists r. split; [left; reflexivity | lia].
      * right. exists r'. split; [right; exact Hin | exact Hr'].
    + intros [H|(r' & [<-|Hin] & Hr')]; auto.
      right. exists r'. auto.
Qed.

Lemma region_scan_spec wavelength bad_regions :
  region_scan wavelength bad_regions = true <-> in_some_region wavelength bad_regions.
Proof.
  unfold region_scan. rewrite region_scan_from. split; [intros [H|H]; [discriminate|exact H] | auto].
Qed.

(** X13. [create_bad_bands] always succeeds and stores one flag per
    wavelength, in order; the flag is True exactly when the wavelength lies
    in one of the regions, ends included (so True marks a bad band); nothing
    else of the handle changes and nothing is printed. *)
Theorem create_bad_bands_marks_regions (bad_regions : list (Z * Z)) (m : machine) :
  let m' := snd (create_bad_bands bad_regions m) in
  let ws := wave_items (wavelengths (hy_obj m)) in
  fst (create_bad_bands bad_regions m) = Ok tt /\
  length (bad_bands (hy_obj m')) = length ws /\
  (forall i w, nth_error ws i = Some w ->
     exists flag, nth_error (bad_bands (hy_obj m')) i = Some flag /\
                  (flag = true <-> in_some_region w bad_regions)) /\
  set_bad_bands (bad_bands (hy_obj m)) (hy_obj m') = hy_obj m /\
  stdout m' = stdout m.
Proof.
  cbv zeta. unfold create_bad_bands. norm0. attrs_all.
  split; [reflexivity|]. split; [apply length_map|]. split; [|split].
  - intros i w Hi. exists (region_scan w bad_regions). split.
    + rewrite nth_error_map, Hi. reflexivity.
    + apply region_scan_spec.
  - destruct m as [h o]. destruct h. reflexivity.
  - reflexivity.
Qed.

Section BandMathFacts.
Context `{P : Platform} `{C : Codec} `{AA : ArrayArith}.

Lemma get_wave_out_of_range m a lo hi wave msk :
  wavelengths (hy_obj m) = WArray a -> is_min a lo -> is_max a hi ->
  wave < lo \/ hi < wave ->
  get_wave wave msk m = (Ok None, printed "Input wavelength outside wavelength range!" m).
Proof.
  intros Hw Hlo Hhi Hout.
  assert (Htest : (wave >? hi) || (wave <? lo) = true).
  { apply orb_true_iff. destruct Hout; [right | left; rewrite Z.gtb_ltb]; apply Z.ltb_lt; lia. }
  unfold get_wave. norm0. rewrite Hw, (wave_max_is_max a hi Hhi), (wave_min_is_min a lo Hlo).
  rewrite Htest. reflexivity.
Qed.

Lemma get_wave_keeps_wavelengths wave msk m :
  wavelengths (hy_obj (snd (get_wave wave msk m))) = wavelengths (hy_obj m).
Proof.
  unfold get_wave. norm0.
  destruct (wave_max (wavelengths (hy_obj m))); [|reflexivity].
  destruct (wave_min (wavelengths (hy_obj m))); [|reflexivity].
  destruct ((wave >? a) || (wave <? a0)); [reflexivity|].
  destruct (abs_diff (wavelengths (hy_obj m)) wave); [|reflexivity].
  destruct (argmin a1); [|reflexivity].
  pose proof (run_read_meta (CallBand (Z.of_nat a2) msk) m) as [Hm _].
  cbn [run_read] in Hm.
  destruct (get_band (Z.of_nat a2) msk m) as [[b|e] m']; cbn [snd] in *;
    meta_attr wavelengths Hm; congruence.
Qed.

(** X14. [ndi] with a wavelength outside the range of the image does not
    return: [get_wave] answers None for it and the arithmetic on None
    raises. When both wavelengths are out of range the error is TypeError
    after the range message has been printed twice. *)
Theorem ndi_out_of_range (m : machine) (a : list Z) (lo hi wave1 wave2 : Z)
    (msk : option string) :
  wavelengths (hy_obj m) = WArray a -> is_min a lo -> is_max a hi ->
  ((wave1 < lo \/ hi < wave1) \/ (wave2 < lo \/ hi < wave2) ->
     is_ok (fst (ndi wave1 wave2 msk m)) = false) /\
  ((wave1 < lo \/ hi < wave1) -> (wave2 < lo \/ hi < wave2) ->
     ndi wave1 wave2 msk m =
       (Raise TypeError,
        printed "Input wavelength outside wavelength range!"
          (printed "Input wavelength outside wavelength range!" m))).
Proof.
  intros Hw Hlo Hhi. split.
  - intros Hout. unfold ndi. unfold bind at 1.
    destruct (get_wave wave1 None m) as [[w1|e1] m1] eqn:E1; [|reflexivity].
    assert (Hw1 : wavelengths (hy_obj m1) = WArray a).
    { pose proof (get_wave_keeps_wavelengths wave1 None m) as H. rewrite E1 in H.
      cbn [snd] in H. congruence. }
    unfold bind at 1.
    destruct (get_wave wave2 None m1) as [[w2|e2] m2] eqn:E2; [|reflexivity].
    assert (Hnone : w1 = None \/ w2 = None).
    { destruct Hout as [H1|H2].
      - left. rewrite (get_wave_out_of_range m a lo hi wave1 None Hw Hlo Hhi H1) in E1.
        congruence.
      - right. rewrite (get_wave_out_of_range m1 a lo hi wave2 None Hw1 Hlo Hhi H2) in E2.
        congruence. }
    norm0. destruct Hnone as [-> | ->]; [reflexivity|]. destruct w1; reflexivity.
  - intros H1 H2. unfold ndi. unfold bind at 1.
    rewrite (get_wave_out_of_range m a lo hi wave1 None Hw Hlo Hhi H1).
    cbv beta iota. unfold bind at 1.
    rewrite (get_wave_out_of_range (printed "Input wavelength outside wavelength range!" m)
               a lo hi wave2 None Hw Hlo Hhi H2).
    reflexivity.
Qed.
End BandMathFacts.

Section CallbackFacts.
Context `{P : Platform} `{C : Codec}.

(** X15. [gen_mask] followed by [get_band]: when the masking callback returns
    a mask, it is registered under the given name, the other names stay as
    the callback left them, and a read of a band with that name returns the
    band indexed by that mask. *)
Theorem gen_mask_then_get_band (masker : callback (nd bool)) (name : string) (args : pyval)
    (index : Z) (m m1 : machine) (mk : nd bool) (band : array2) :
  name <> "" ->
  masker (if py_truthy args then Some args else None) m = (Ok mk, m1) ->
  fst (get_band index None m1) = Ok (A2 band) ->
  exists m',
    gen_mask masker name args m = (Ok tt, m') /\
    mask (hy_obj m') !! name = Some mk /\
    (forall other, other <> name -> mask (hy_obj m') !! other = mask (hy_obj m1) !! other) /\
    fst (get_band index (Some name) m') = boolean_index band mk.
Proof.
  intros Hne Hcall Hband.
  exists (on_handle (set_mask_attr (<[name := mk]> (mask (hy_obj m1)))) m1).
  split; [|split; [|split]].
  - unfold gen_mask. destruct (py_truthy args); norm0; rewrite Hcall; reflexivity.
  - attrs_all. apply lookup_insert_eq.
  - intros other Ho. attrs_all. apply lookup_insert_ne. congruence.
  - rewrite (proj2 (get_band_mask_last index (Some name) _)).
    rewrite get_band_ignores_masks, Hband. cbn [res_bind].
    unfold apply_mask. rewrite (truthy_name name Hne).
    change (default "" (Some name)) with name. attrs_all.
    rewrite lookup_insert_eq. reflexivity.
Qed.
End CallbackFacts.

(** X16. [gen_mask] and [do] test the extra argument for truth: a falsy
    argument (0, False, the empty string) is treated as no argument and the
    callback is called with the handle alone; a truthy one is passed on; and
    when the masking callback raises, [gen_mask] raises the same error
    and registers nothing. *)
Theorem callback_args {A} (masker : callback (nd bool)) (function : callback A)
    (name : string) (m : machine) :
  (forall args, py_truthy args = false ->
     gen_mask masker name args m = gen_mask masker name PNone m /\
     do_ function args m = function None m) /\
  (forall args, py_truthy args = true -> do_ function args m = function (Some args) m) /\
  (forall args e m1,
     masker (if py_truthy args then Some args else None) m = (Raise e, m1) ->
     gen_mask masker name args m = (Raise e, m1)).
Proof.
  repeat split.
  - unfold gen_mask. rewrite H. reflexivity.
  - unfold do_. rewrite H. reflexivity.
  - intros args Ht. unfold do_. rewrite Ht. reflexivity.
  - intros args e m1 H. unfold gen_mask.
    destruct (py_truthy args); norm0; rewrite H; reflexivity.
Qed.

(** ** The further properties on the example scene *)

Abbreviation scene_run_read := (run_read (P := scene_platform) (C := spec_codec)).
Abbreviation scene_get_line := (get_line (P := scene_platform) (C := spec_codec)).
Abbreviation scene_get_column := (get_column (P := scene_platform) (C := spec_codec)).
Abbreviation scene_get_chunk := (get_chunk (P := scene_platform) (C := spec_codec)).
Abbreviation scene_load_data := (load_data (P := scene_platform)).

(** On the scene of 4 lines and 5 columns with chunks of 3 by 2, the sixth
    call reads the last tile, columns 4 to 5 of lines 3 to 4, and completes
    the cursor. *)
Lemma chunk_sweep_tiles_witness :
  scene_read_next (scene_calls 5 scene_chunk_cursor) =
    (let (res, m') := scene_run_read (CallChunk 4 5 3 4)
                        (mach (scene_calls 5 scene_chunk_cursor)) in
     (res, {| it := it (scene_calls 6 scene_chunk_cursor); mach := m' |})) /\
  complete (it (scene_calls 6 scene_chunk_cursor)) = true.
Proof.
  destruct (chunk_sweep_tiles (P := scene_platform) (C0 := spec_codec) (neon_store ∅)
              4 5 3 2 2 3 1 2 eq_refl eq_refl ltac:(lia) ltac:(lia) ltac:(lia) ltac:(lia)
              ltac:(lia) ltac:(lia)) as (H1 & H2 & _).
  split; [exact H1 | apply H2; split; reflexivity].
Defined.

(** On the same scene the seventh call asks for lines 6 to 4. *)
Lemma chunk_sweep_overrun_witness :
  complete (it (scene_calls 6 scene_chunk_cursor)) = true /\
  scene_read_next (scene_calls 6 scene_chunk_cursor) =
    (let (res, m') := scene_run_read (CallChunk 0 2 6 4)
                        (mach (scene_calls 6 scene_chunk_cursor)) in
     (res, {| it := it (scene_calls 7 scene_chunk_cursor); mach := m' |})).
Proof.
  destruct (chunk_sweep_overrun (P := scene_platform) (C0 := spec_codec) (neon_store ∅)
              4 5 3 2 2 3 eq_refl eq_refl ltac:(lia) ltac:(lia) ltac:(lia) ltac:(lia)
              ltac:(lia) ltac:(lia)) as (H1 & H2 & _).
  split; [exact H1 | exact H2].
Defined.

Lemma traversal_keeps_handle_and_mode_witness :
  by_ (it (scene_calls 2 finished_cursor)) = PStr "line" /\
  complete (it (scene_calls 2 finished_cursor)) = true.
Proof.
  destruct (traversal_keeps_handle_and_mode (P := scene_platform) (C0 := spec_codec)
              2 finished_cursor) as (_ & _ & Hb & _ & Hc).
  split; [exact Hb | apply Hc; reflexivity].
Defined.

Lemma unknown_mode_raises_witness :
  scene_read_next pixel_cursor = (Raise UnboundLocalError, pixel_cursor).
Proof.
  apply (unknown_mode_raises (P := scene_platform) (C0 := spec_codec) pixel_cursor);
    reflexivity.
Defined.

Lemma set_mask_then_get_band_witness :
  fst (scene_get_band 0 (Some "diag")
         (snd (set_mask (A2 diagonal_mask) "diag" (neon_store ∅)))) =
  boolean_index (scene_band 0) (A2 diagonal_mask).
Proof.
  assert (Hne : "diag" <> "") by (intros H; discriminate H).
  destruct (set_mask_then_get_band (P := scene_platform) (C := spec_codec) 0 "diag"
              (A2 diagonal_mask) (neon_store ∅) (scene_band 0) Hne
              ltac:(vm_compute; reflexivity)) as (_ & H & _).
  exact H.
Defined.

Lemma unknown_mask_name_raises_witness :
  fst (scene_get_band 0 (Some "water") (neon_store ∅)) = Raise KeyError.
Proof.
  assert (Hne : "water" <> "") by (intros H; discriminate H).
  assert (Hreg : mask (hy_obj (neon_store ∅)) !! "water" = None) by reflexivity.
  assert (Hok : is_ok (fst (scene_get_band 0 None (neon_store ∅))) = true)
    by (vm_compute; reflexivity).
  destruct (unknown_mask_name_raises (P := scene_platform) (C := spec_codec) 0 "water"
              (neon_store ∅) Hne Hreg Hok) as (H & _).
  exact H.
Defined.

(** The flat payload closes twice; the container closes once. *)
Lemma close_data_twice_witness :
  close_data (snd (close_data (envi_store BSQ "little"))) =
    close_data (envi_store BSQ "little") /\
  fst (close_data (snd (scene_load_data "r" (neon_store ∅)))) = Ok tt /\
  fst (close_data (snd (close_data (snd (scene_load_data "r" (neon_store ∅)))))) =
    Raise AttributeError.
Proof.
  destruct (close_data_twice (envi_store BSQ "little")) as [He _].
  destruct (close_data_twice (snd (scene_load_data "r" (neon_store ∅)))) as [_ Hn].
  destruct (He eq_refl) as [_ H1].
  destruct (Hn eq_refl) as [_ H2].
  destruct (H2 (scene_file (scene_dataset 4 5 2)) eq_refl) as [H3 H4].
  split; [exact H1|]. split; [rewrite H3 | rewrite H4]; reflexivity.
Defined.

(** A container without the reflectance dataset stays open in [hdf_obj];
    a payload that cannot be mapped changes nothing. *)
Lemma load_data_failure_witness :
  load_data (P := bare_platform) "r" (neon_store ∅) =
    (Raise KeyError, on_handle (set_hdf_obj (Some (HGroup []))) (neon_store ∅)) /\
  load_data (P := bare_platform) "r" (envi_store BSQ "little") =
    (Raise OSError, envi_store BSQ "little") /\
  load_data (P := bare_platform) "r" fresh_store = (Ok tt, fresh_store).
Proof.
  destruct (load_data_failure (P := bare_platform) "r" (neon_store ∅)) as (_ & _ & H3 & _).
  destruct (load_data_failure (P := bare_platform) "r" (envi_store BSQ "little"))
    as (H1 & _).
  destruct (load_data_failure (P := bare_platform) "r" fresh_store) as (_ & _ & _ & H4).
  split; [exact (H3 (HGroup []) KeyError eq_refl eq_refl eq_refl)|].
  split; [exact (H1 OSError eq_refl eq_refl) | exact (H4 eq_refl eq_refl)].
Defined.

(** The element at line 3, column 2, band 1 of the scene along the four
    paths. *)
Lemma access_paths_agree_witness :
  exists band line column pixel,
    fst (scene_get_band 1 None (neon_store ∅)) = Ok (A2 band) /\
    fst (scene_get_line 3 (neon_store ∅)) = Ok (A2 line) /\
    fst (scene_get_column 2 (neon_store ∅)) = Ok (A2 column) /\
    fst (scene_get_pixels [3] [2] (neon_store ∅)) = Ok (A2 [pixel]) /\
    entry band (3, 2)%nat = Some (cell 321) /\
    entry line (2, 1)%nat = Some (cell 321) /\
    entry column (3, 1)%nat = Some (cell 321) /\
    nth_error pixel 1 = Some (cell 321).
Proof.
  exact (access_paths_agree (P := scene_platform) (C := spec_codec) (neon_store ∅)
           (scene_file (scene_dataset 4 5 2)) (scene_dataset 4 5 2) 4 5 2 3 2 1
           eq_refl eq_refl eq_refl eq_refl ltac:(lia) ltac:(lia) ltac:(lia)).
Defined.

Lemma get_pixels_truncates_witness :
  scene_get_pixels [3; 1; 0] [2; 4] (neon_store ∅) =
  scene_get_pixels [3; 1] [2; 4] (neon_store ∅).
Proof.
  exact (get_pixels_truncates (P := scene_platform) (C := spec_codec) [3; 1; 0] [2; 4]
           (neon_store ∅) eq_refl).
Defined.

(** The window of lines 2 to 4 and columns 1 to 3 of the scene. *)
Lemma chunk_entries_witness :
  exists chunk,
    fst (scene_get_chunk 1 3 2 4 (neon_store ∅)) = Ok (A3 chunk) /\
    length chunk = 2%nat /\
    entry3 chunk 1 0 1 = Some (cell 311).
Proof.
  destruct (chunk_entries (P := scene_platform) (C := spec_codec) (neon_store ∅)
              (scene_file (scene_dataset 4 5 2)) (scene_dataset 4 5 2) 4 5 2 1 3 2 4
              eq_refl eq_refl eq_refl eq_refl ltac:(lia) ltac:(lia) ltac:(lia) ltac:(lia))
    as (chunk & H1 & H2 & H3).
  exists chunk. split; [exact H1|]. split; [exact H2|].
  exact (H3 1%nat 0%nat 1%nat ltac:(simpl; lia) ltac:(simpl; lia) ltac:(lia)).
Defined.

Lemma exact_wavelength_match_witness :
  wave_to_band 650 (neon_store ∅) = (Ok (Some 2%nat), neon_store ∅).
Proof.
  assert (Hfirst : forall j, (j < 2)%nat -> nth_error [450; 550; 650; 750] j <> Some 650).
  { intros j Hj E. destruct j as [|[|j]]; [discriminate E | discriminate E | lia]. }
  destruct (exact_wavelength_match (P := scene_platform) (C := spec_codec) (neon_store ∅)
              [450; 550; 650; 750] 650 2 None eq_refl eq_refl Hfirst) as [H _].
  exact H.
Defined.

(** 550 lies in the region from 500 to 600 and 650 does not. *)
Lemma create_bad_bands_marks_regions_witness :
  nth_error (bad_bands (hy_obj (snd (create_bad_bands [(500, 600)] (neon_store ∅))))) 1 =
    Some true /\
  nth_error (bad_bands (hy_obj (snd (create_bad_bands [(500, 600)] (neon_store ∅))))) 2 =
    Some false.
Proof.
  destruct (create_bad_bands_marks_regions [(500, 600)] (neon_store ∅)) as (_ & _ & H & _).
  destruct (H 1%nat 550 eq_refl) as (f1 & E1 & I1).
  destruct (H 2%nat 650 eq_refl) as (f2 & E2 & I2).
  split.
  - rewrite E1. f_equal. apply I1. exists (500, 600). split; [left; reflexivity | simpl; lia].
  - rewrite E2. f_equal. destruct f2; [|reflexivity].
    destruct (proj1 I2 eq_refl) as (region & [<-|[]] & Hin). simpl in Hin. lia.
Defined.

(** 900 and 100 are outside the scene's range of 450 to 750. *)
Lemma ndi_out_of_range_witness :
  ndi (P := scene_platform) (C := spec_codec) (AA := first_operand_arith) 900 100 None
      (neon_store ∅) =
    (Raise TypeError,
     printed "Input wavelength outside wavelength range!"
       (printed "Input wavelength outside wavelength range!" (neon_store ∅))).
Proof.
  assert (Hlo : is_min [450; 550; 650; 750] 450).
  { split; [simpl; auto | intros y Hy; simpl in Hy; intuition lia]. }
  assert (Hhi : is_max [450; 550; 650; 750] 750).
  { split; [simpl; auto | intros y Hy; simpl in Hy; intuition lia]. }
  destruct (ndi_out_of_range (P := scene_platform) (C := spec_codec)
              (AA := first_operand_arith) (neon_store ∅) [450; 550; 650; 750] 450 750
              900 100 None eq_refl Hlo Hhi) as [_ H].
  apply H; [right | left]; lia.
Defined.

Lemma gen_mask_then_get_band_witness :
  exists m',
    gen_mask (constant_callback (A2 diagonal_mask)) "diag" PNone (neon_store ∅) = (Ok tt, m') /\
    fst (scene_get_band 0 (Some "diag") m') = boolean_index (scene_band 0) (A2 diagonal_mask).
Proof.
  assert (Hne : "diag" <> "") by (intros H; discriminate H).
  destruct (gen_mask_then_get_band (P := scene_platform) (C := spec_codec)
              (constant_callback (A2 diagonal_mask)) "diag" PNone 0 (neon_store ∅)
              (neon_store ∅) (A2 diagonal_mask) (scene_band 0) Hne eq_refl
              ltac:(vm_compute; reflexivity)) as (m' & H1 & _ & _ & H2).
  exists m'. split; [exact H1 | exact H2].
Defined.

(** The argument 0 never reaches the callback; the argument 7 does. *)
Lemma callback_args_witness :
  do_ arity_probe (PInt 0) (neon_store ∅) = (Ok false, neon_store ∅) /\
  do_ arity_probe (PInt 7) (neon_store ∅) = (Ok true, neon_store ∅).
Proof.
  destruct (callback_args (constant_callback (A2 diagonal_mask)) arity_probe "diag"
              (neon_store ∅)) as (H1 & H2 & _).
  destruct (H1 (PInt 0) eq_refl) as [_ H0].
  split; [exact H0 | exact (H2 (PInt 7) eq_refl)].
Defined.
